(** * Kernel smart account: construction, signing and call encoding

    A shallow embedding of [createKernelAccount] and of the functions it
    closes over ([getAccountInitCode], [getAccountAddress],
    [signHashedMessage]), followed by the properties of the account
    handle it returns.

    - Hex strings and addresses are JavaScript strings.
    - [bigint] values are integers in [Z].
    - The viem primitives (hashing, ABI encoding and decoding) are the
      fields of the class [Viem]; every definition is parametric in them.
    - Everything the code awaits from a collaborator (the RPC client, the
      validator plugins) is an [Event] of a small free monad [Prog]; a
      [World] answers events, and [run] records them in order. *)

From Stdlib Require Import String Ascii List ZArith Bool Arith Lia.
Import ListNotations.
Open Scope string_scope.
Set Warnings "-register-all".

(** ** JavaScript values *)

Definition Hex := string.
Definition Address := string.

(** [Boolean(s)] for a string: only the empty string is falsy. *)
Definition truthy (s : string) : bool := negb (String.eqb s "").

(** [Boolean(x)] for [x : string | undefined]. *)
Definition truthy_opt (o : option string) : bool :=
  match o with
  | None => false
  | Some s => truthy s
  end.

(** [Boolean(x)] for an optional object: every object is truthy. *)
Definition present {A : Type} (o : option A) : bool :=
  match o with
  | None => false
  | Some _ => true
  end.

(** [a ?? b] *)
Definition nullish {A : Type} (a : option A) (b : A) : A :=
  match a with
  | Some x => x
  | None => b
  end.

(** [String.prototype.toLowerCase], on the ASCII letters (hex strings hold
    no others). *)
Definition lower_ascii (c : ascii) : ascii :=
  let n := nat_of_ascii c in
  if (65 <=? n)%nat && (n <=? 90)%nat then ascii_of_nat (n + 32) else c.

Fixpoint toLowerCase (s : string) : string :=
  match s with
  | EmptyString => EmptyString
  | String c s' => String (lower_ascii c) (toLowerCase s')
  end.

(** Two spellings of one address: equal up to the case of the letters. *)
Definition same_address (a b : Address) : Prop :=
  toLowerCase a = toLowerCase b.

(** The template type [`0x${string}`] of [Hex] and [Address]. *)
Definition is_hex (s : string) : bool := String.prefix "0x" s.

(** ** Errors and results *)

Inductive Error : Type :=
| JsError (message : string)
| SignTransactionNotSupportedBySmartAccount
| ExternalError (what : string).

Inductive Result (A : Type) : Type :=
| Ok (a : A)
| Err (e : Error).
Arguments Ok {A} a.
Arguments Err {A} e.

(** A settled promise. *)
Definition Promise (A : Type) : Type := Result A.

(** ** ABI descriptors and values *)

Record AbiParameter : Type := mkParam {
  internalType : string;
  param_name : string;
  param_type : string
}.

Record AbiFunction : Type := mkFunction {
  fn_name : string;
  fn_inputs : list AbiParameter;
  fn_outputs : list AbiParameter;
  stateMutability : string
}.

Definition Abi := list AbiFunction.

Inductive AbiType : Type :=
| TBytes32
| TUint256
| TAddress.

Inductive AbiValue : Type :=
| VAddress (a : Address)
| VUint (n : Z)
| VBytes (h : Hex)
| VStruct (fields : list (string * AbiValue))
| VArray (items : list AbiValue).

(** The decoded outputs of [eip712Domain()], by position:
    [decoded[0]] is [fields], [decoded[1]] is [name], and so on. *)
Record Eip712Domain : Type := mkDomain {
  fields : Hex;
  name : string;
  version : string;
  chainId : Z;
  verifyingContract : Address;
  salt : Hex;
  extensions : list Z
}.

(** ** The primitives imported from viem and the two imported ABIs *)

Class Viem : Type := {
  UserOperation : Type;
  TransactionSerializable : Type;
  SerializeArgs : Type;
  TypedDataDefinition : Type;
  EncodeDeployDataParameters : Type;
  KernelExecuteAbi : Abi;
  KernelInitAbi : Abi;
  keccak256 : Hex -> Hex;
  stringToHex : string -> Hex;
  concatHex : list Hex -> Hex;
  isAddress : string -> bool;
  parseAbi : list string -> Abi;
  encodeFunctionData : Abi -> string -> list AbiValue -> Result Hex;
  encodeAbiParameters : list AbiType -> list AbiValue -> Result Hex;
  decodeFunctionResult : Abi -> string -> Hex -> Result Eip712Domain;
  encodeDeployData : EncodeDeployDataParameters -> Result Hex;
  withEIP712DomainTypes : TypedDataDefinition -> TypedDataDefinition;
  validateTypedData : TypedDataDefinition -> Result unit;
  hashTypedData : TypedDataDefinition -> Result Hex
}.

(** ** Validator plugins and call descriptors *)

Record Signer : Type := mkSigner {
  signer_address : Address
}.

Record KernelPlugin : Type := mkPlugin {
  plugin_name : string;
  plugin_address : Address;
  signer : Signer
}.

Record CallDescriptor : Type := mkCall {
  to : Address;
  value : Z;
  data : Hex;
  callType : option string
}.

Inductive KernelEncodeCallDataArgs : Type :=
| Single (tx : CallDescriptor)
| Batch (txs : list CallDescriptor).

Inductive SignableMessage : Type :=
| MsgString (s : string)
| MsgRaw (raw : Hex).

(** ** ABIs and constants declared in the module *)

(** The account creation ABI for a kernel smart account (from the
    KernelFactory). *)
Definition createAccountAbi : Abi :=
  [ mkFunction "createAccount"
      [ mkParam "address" "_implementation" "address";
        mkParam "bytes" "_data" "bytes";
        mkParam "uint256" "_index" "uint256" ]
      [ mkParam "address" "proxy" "address" ]
      "payable" ].

Definition createCallAddress : Address :=
  "0x9b35Af71d77eaf8d7e40252370304687390A1A52".

Definition createCallAbi `{Viem} : Abi :=
  parseAbi
    [ "function performCreate(uint256 value, bytes memory deploymentData) public returns (address newContract)";
      "function performCreate2(uint256 value, bytes memory deploymentData, bytes32 salt) public returns (address newContract)" ].

Definition eip1271Abi : Abi :=
  [ mkFunction "eip712Domain" []
      [ mkParam "bytes1" "fields" "bytes1";
        mkParam "string" "name" "string";
        mkParam "string" "version" "string";
        mkParam "uint256" "chainId" "uint256";
        mkParam "address" "verifyingContract" "address";
        mkParam "bytes32" "salt" "bytes32";
        mkParam "uint256[]" "extensions" "uint256[]" ]
      "view";
    mkFunction "isValidSignature"
      [ mkParam "bytes32" "data" "bytes32";
        mkParam "bytes" "signature" "bytes" ]
      [ mkParam "bytes4" "magicValue" "bytes4" ]
      "view" ].

(** Default addresses for kernel smart account. *)
Module KERNEL_ADDRESSES.
Definition ACCOUNT_V2_3_LOGIC : Address :=
  "0xD3F582F6B4814E989Ee8E96bc3175320B5A540ab".
Definition FACTORY_ADDRESS : Address :=
  "0x5de4839a76cf55d0c90e2061ef4386d962E15ae3".
Definition ENTRYPOINT_V0_6 : Address :=
  "0x5FF137D4b0FDCD49DcA30c7CF57E578a026d2789".
End KERNEL_ADDRESSES.

Definition eip712DomainType : string :=
  "EIP712Domain(string name,string version,uint256 chainId,address verifyingContract)".

(** ** Events: what the code asks of its collaborators *)

Section Events.
Context `{Viem}.

Inductive Event : Type :=
| EthCall (target : Address) (calldata : Hex) (block : string)
| GetSenderAddress (initCode : Hex) (entryPoint : Address)
| GetAccountNonce (sender : Address) (entryPoint : Address)
| GetBytecode (address : Address)
| SignMessage (account : Signer) (raw : Hex)
| GetEnableData (p : KernelPlugin)
| ShouldDelegateViaFallback (p : KernelPlugin)
| SignUserOperation (p : KernelPlugin) (op : UserOperation)
    (enableSig : option Hex)
| GetDummySignature (p : KernelPlugin) (op : UserOperation)
    (enableSig : option Hex)
| GetPluginEnableSignature (p : KernelPlugin) (accountAddress : Address)
    (plugin : KernelPlugin).

(** What each event is answered with. *)
Definition ans (e : Event) : Type :=
  match e with
  | EthCall _ _ _ => Hex
  | GetSenderAddress _ _ => option Address
  | GetAccountNonce _ _ => Z
  | GetBytecode _ => option Hex
  | SignMessage _ _ => Hex
  | GetEnableData _ => Hex
  | ShouldDelegateViaFallback _ => bool
  | SignUserOperation _ _ _ => Hex
  | GetDummySignature _ _ _ => Hex
  | GetPluginEnableSignature _ _ _ => Hex
  end.

(** Programs: return, throw (or reject), or ask a collaborator and go on
    with the settled outcome. *)
Inductive Prog (A : Type) : Type :=
| Ret (a : A)
| Throw (e : Error)
| Vis (e : Event) (k : Promise (ans e) -> Prog A).

Fixpoint bind {A B : Type} (p : Prog A) (f : A -> Prog B) : Prog B :=
  match p with
  | Ret _ a => f a
  | Throw _ e => Throw B e
  | Vis _ e k => Vis B e (fun r => bind (k r) f)
  end.

(** [await p] *)
Definition await {A : Type} (p : Promise A) : Prog A :=
  match p with
  | Ok a => Ret A a
  | Err e => Throw A e
  end.

(** A pure primitive that may throw. *)
Definition lift {A : Type} (r : Result A) : Prog A := await r.

(** Start a collaborator's work and keep the promise. *)
Definition call (e : Event) : Prog (Promise (ans e)) :=
  Vis _ e (fun r => Ret _ r).

(** Start it and await it at once. *)
Definition request (e : Event) : Prog (ans e) :=
  Vis _ e await.

(** A world answers an event, knowing the events before it. *)
Definition World : Type := list Event -> forall e : Event, Promise (ans e).

(** Run a program after the events [h]; the outcome comes with the
    events extended by those of the program, in order. *)
Fixpoint run {A : Type} (p : Prog A) (w : World) (h : list Event)
  : Result A * list Event :=
  match p with
  | Ret _ a => (Ok a, h)
  | Throw _ e => (Err e, h)
  | Vis _ e k => run (k (w h e)) w (h ++ [e])
  end.

End Events.

Arguments Ret {_ A} a.
Arguments Throw {_ A} e.
Arguments Vis {_ A} e k.

Notation "x <- c ;; k" := (bind c (fun x => k))
  (at level 61, c at next level, right associativity).


(** ** The functions of the module *)

Section Kernel.
Context `{Viem}.

(** [x === s] for [x : string | undefined]. *)
Definition strict_eq (x : option string) (s : string) : bool :=
  match x with
  | Some y => String.eqb y s
  | None => false
  end.

(** [x?.length ?? 0] *)
Definition length_or_zero (x : option string) : nat :=
  match x with
  | Some s => String.length s
  | None => 0
  end.

(** Get the account initialization code for a kernel smart account.
    [enableData] is the promise the caller got from [getEnableData()]. *)
Definition getAccountInitCode (owner : Address) (index : Z)
    (factoryAddress accountLogicAddress validatorAddress : Address)
    (enableData : Promise Hex) : Prog Hex :=
  if negb (truthy owner) then Throw (JsError "Owner account not found")
  else
    awaited <- await enableData ;;
    initialisationData <-
      lift (encodeFunctionData KernelInitAbi "initialize"
              [VAddress validatorAddress; VBytes awaited]) ;;
    createAccountCall <-
      lift (encodeFunctionData createAccountAbi "createAccount"
              [VAddress accountLogicAddress; VBytes initialisationData;
               VUint index]) ;;
    Ret (concatHex [factoryAddress; createAccountCall]).

(** Fetch the pre-deterministic account address for a kernel smart
    wallet. *)
Definition getAccountAddress (entryPoint : Address)
    (initCodeProvider : Prog Hex) : Prog (option Address) :=
  initCode <- initCodeProvider ;;
  request (GetSenderAddress initCode entryPoint).

(** The three constants of [signHashedMessage]. *)
Definition encoded (decoded : Eip712Domain) (account_address : Address)
  : Result Hex :=
  encodeAbiParameters
    [TBytes32; TBytes32; TBytes32; TUint256; TAddress]
    [VBytes (keccak256 (stringToHex eip712DomainType));
     VBytes (keccak256 (stringToHex (name decoded)));
     VBytes (keccak256 (stringToHex (version decoded)));
     VUint (chainId decoded);
     VAddress account_address].

Definition domainSeparator (decoded : Eip712Domain)
    (account_address : Address) : Result Hex :=
  match encoded decoded account_address with
  | Ok e => Ok (keccak256 e)
  | Err x => Err x
  end.

Definition digest (separator messageHash : Hex) : Hex :=
  keccak256 (concatHex ["0x1901"; separator; messageHash]).

Definition signHashedMessage (currentValidator : KernelPlugin)
    (account_logicAddress account_address : Address) (messageHash : Hex)
  : Prog Hex :=
  calldata <- lift (encodeFunctionData eip1271Abi "eip712Domain" []) ;;
  domain <- request (EthCall account_logicAddress calldata "latest") ;;
  decoded <- lift (decodeFunctionResult eip1271Abi "eip712Domain" domain) ;;
  separator <- lift (domainSeparator decoded account_address) ;;
  request (SignMessage (signer currentValidator)
             (digest separator messageHash)).

(** Helper to generate the init code for the smart account. *)
Definition generateInitCode (initCode : option Hex)
    (defaultValidator : option KernelPlugin) (index : Z)
    (factoryAddress accountLogicAddress : Address) : Prog Hex :=
  let otherwise :=
    match defaultValidator with
    | Some dv =>
        enableData <- call (GetEnableData dv) ;;
        getAccountInitCode (signer_address (signer dv)) index factoryAddress
          accountLogicAddress (plugin_address dv) enableData
    | None => Throw (JsError "No init code or default validator provided")
    end in
  match initCode with
  | Some ic => if truthy ic then Ret ic else otherwise
  | None => otherwise
  end.

(** The message hash of [signMessage]. *)
Definition messageHashOf (message : SignableMessage) : Hex :=
  match message with
  | MsgString s => keccak256 (stringToHex s)
  | MsgRaw raw => keccak256 raw
  end.

Definition signMessage (currentValidator : KernelPlugin)
    (accountAddress accountLogicAddress : Address)
    (message : SignableMessage) : Prog Hex :=
  signHashedMessage currentValidator accountLogicAddress accountAddress
    (messageHashOf message).

Definition signTransaction (_tx : TransactionSerializable)
    (_args : SerializeArgs) : Prog Hex :=
  Throw SignTransactionNotSupportedBySmartAccount.

Definition signTypedData (currentValidator : KernelPlugin)
    (accountAddress accountLogicAddress : Address)
    (typedData : TypedDataDefinition) : Prog Hex :=
  _ <- lift (validateTypedData (withEIP712DomainTypes typedData)) ;;
  typedHash <- lift (hashTypedData typedData) ;;
  signHashedMessage currentValidator accountLogicAddress accountAddress
    typedHash.

Definition getPluginEnableSignature (pluginEnableSignature : option Hex)
    (plugin defaultValidator : option KernelPlugin)
    (accountAddress : Address) : Prog (option Hex) :=
  if truthy_opt pluginEnableSignature then Ret pluginEnableSignature
  else
    match plugin, defaultValidator with
    | Some p, Some dv =>
        s <- request (GetPluginEnableSignature dv accountAddress p) ;;
        Ret (Some s)
    | _, _ => Ret None
    end.

Definition getNonce (accountAddress entryPoint : Address) : Prog Z :=
  request (GetAccountNonce accountAddress entryPoint).

Definition signUserOperation (currentValidator : KernelPlugin)
    (enableSignature : Prog (option Hex)) (userOperation : UserOperation)
  : Prog Hex :=
  pluginEnableSignature <- enableSignature ;;
  request (SignUserOperation currentValidator userOperation
             pluginEnableSignature).

Definition getDummySignature (currentValidator : KernelPlugin)
    (enableSignature : Prog (option Hex)) (userOperation : UserOperation)
  : Prog Hex :=
  pluginEnableSignature <- enableSignature ;;
  request (GetDummySignature currentValidator userOperation
             pluginEnableSignature).

(** Encode the init code. *)
Definition getInitCode (accountAddress : Address)
    (generate : Prog Hex) : Prog Hex :=
  contractCode <- request (GetBytecode accountAddress) ;;
  if (2 <? length_or_zero contractCode)%nat then Ret "0x" else generate.

(** Encode the deploy call data. *)
Definition encodeDeployCallData (_tx : EncodeDeployDataParameters)
  : Prog Hex :=
  deploymentData <- lift (encodeDeployData _tx) ;;
  performCreate <-
    lift (encodeFunctionData createCallAbi "performCreate"
            [VUint 0; VBytes deploymentData]) ;;
  lift (encodeFunctionData KernelExecuteAbi "executeDelegateCall"
          [VAddress createCallAddress; VBytes performCreate]).

(** The callback of [tx.map] in the batched branch. *)
Definition batchEntry (txn : CallDescriptor) : Result AbiValue :=
  if strict_eq (callType txn) "delegatecall"
  then Err (JsError "Cannot batch delegatecall")
  else Ok (VStruct [("to", VAddress (to txn));
                    ("value", VUint (value txn));
                    ("data", VBytes (data txn))]).

(** [tx.map(callback)], left to right, stopping at the first throw. *)
Fixpoint batchEntries (txs : list CallDescriptor)
  : Result (list AbiValue) :=
  match txs with
  | [] => Ok []
  | txn :: rest =>
      match batchEntry txn with
      | Err x => Err x
      | Ok v =>
          match batchEntries rest with
          | Err x => Err x
          | Ok vs => Ok (v :: vs)
          end
      end
  end.

(** Encode a call. *)
Definition encodeCallData (accountAddress : Address)
    (currentValidator : KernelPlugin) (_tx : KernelEncodeCallDataArgs)
  : Prog Hex :=
  match _tx with
  | Batch txs =>
      calls <- lift (batchEntries txs) ;;
      lift (encodeFunctionData KernelExecuteAbi "executeBatch"
              [VArray calls])
  | Single tx =>
      let execute :=
        lift (encodeFunctionData KernelExecuteAbi "execute"
                [VAddress (to tx); VUint (value tx); VBytes (data tx);
                 VUint 0]) in
      if negb (truthy_opt (callType tx)) || strict_eq (callType tx) "call"
      then
        if String.eqb (toLowerCase (to tx)) accountAddress
        then
          viaFallback <- request (ShouldDelegateViaFallback currentValidator) ;;
          if viaFallback then Ret (data tx) else execute
        else execute
      else if strict_eq (callType tx) "delegatecall"
      then
        lift (encodeFunctionData KernelExecuteAbi "executeDelegateCall"
                [VAddress (to tx); VBytes (data tx)])
      else Throw (JsError "Invalid call type")
  end.

(** ** The account handle *)

(** The options of [createKernelAccount], before defaults. *)
Record Options : Type := mkOptions {
  opt_defaultValidator : option KernelPlugin;
  opt_plugin : option KernelPlugin;
  opt_pluginEnableSignature : option Hex;
  opt_entryPoint : option Address;
  opt_index : option Z;
  opt_factoryAddress : option Address;
  opt_accountLogicAddress : option Address;
  opt_deployedAccountAddress : option Address;
  opt_initCode : option Hex
}.

(** The custom source handed to viem's [toAccount], and what comes back. *)
Record CustomSource : Type := mkSource {
  src_address : Address;
  src_signMessage : SignableMessage -> Prog Hex;
  src_signTransaction : TransactionSerializable -> SerializeArgs -> Prog Hex;
  src_signTypedData : TypedDataDefinition -> Prog Hex
}.

Record KernelSmartAccount : Type := mkAccount {
  sa_address : Address;
  sa_signMessage : SignableMessage -> Prog Hex;
  sa_signTransaction : TransactionSerializable -> SerializeArgs -> Prog Hex;
  sa_signTypedData : TypedDataDefinition -> Prog Hex;
  sa_type : string;
  sa_publicKey : Address;
  sa_entryPoint : Address;
  sa_source : string;
  sa_getNonce : Prog Z;
  sa_defaultValidator : option KernelPlugin;
  sa_plugin : option KernelPlugin;
  sa_getPluginEnableSignature : Prog (option Hex);
  sa_signUserOperation : UserOperation -> Prog Hex;
  sa_generateInitCode : Prog Hex;
  sa_getInitCode : Prog Hex;
  sa_encodeDeployCallData : EncodeDeployDataParameters -> Prog Hex;
  sa_encodeCallData : KernelEncodeCallDataArgs -> Prog Hex;
  sa_getDummySignature : UserOperation -> Prog Hex
}.

(** viem's [toAccount] on a custom source: the address is validated, the
    three signing functions are handed through unchanged. *)
Definition toAccount (source : CustomSource) : Result CustomSource :=
  if isAddress (src_address source) then Ok source
  else Err (ExternalError "InvalidAddressError").

(** [plugin ?? defaultValidator] *)
Definition currentValidatorOf (plugin defaultValidator : option KernelPlugin)
  : option KernelPlugin :=
  match plugin with
  | Some p => Some p
  | None => defaultValidator
  end.

(** Build a kernel smart account. *)
Definition createKernelAccount (o : Options) : Prog KernelSmartAccount :=
  let defaultValidator := opt_defaultValidator o in
  let plugin := opt_plugin o in
  let pluginEnableSignature := opt_pluginEnableSignature o in
  let entryPoint :=
    nullish (opt_entryPoint o) KERNEL_ADDRESSES.ENTRYPOINT_V0_6 in
  let index := nullish (opt_index o) 0%Z in
  let factoryAddress :=
    nullish (opt_factoryAddress o) KERNEL_ADDRESSES.FACTORY_ADDRESS in
  let accountLogicAddress :=
    nullish (opt_accountLogicAddress o)
      KERNEL_ADDRESSES.ACCOUNT_V2_3_LOGIC in
  if negb (present defaultValidator) && negb (present plugin)
  then Throw (JsError
    "You must provide at least defaultValidator or plugin for the kernel smart account")
  else
  match currentValidatorOf plugin defaultValidator with
  | None => (* both absent: excluded by the guard above *)
    Throw (JsError
    "You must provide at least defaultValidator or plugin for the kernel smart account")
  | Some currentValidator =>
  let generate :=
    generateInitCode (opt_initCode o) defaultValidator index factoryAddress
      accountLogicAddress in
  resolved <-
    match opt_deployedAccountAddress o with
    | Some a => Ret (Some a)
    | None => getAccountAddress entryPoint generate
    end ;;
  if negb (truthy_opt resolved)
  then Throw (JsError "Account address not found")
  else
  let accountAddress := nullish resolved "" in
  account <-
    lift (toAccount
            (mkSource accountAddress
               (signMessage currentValidator accountAddress
                  accountLogicAddress)
               signTransaction
               (signTypedData currentValidator accountAddress
                  accountLogicAddress))) ;;
  let enableSignature :=
    getPluginEnableSignature pluginEnableSignature plugin defaultValidator
      accountAddress in
  Ret (mkAccount
         (src_address account)
         (src_signMessage account)
         (src_signTransaction account)
         (src_signTypedData account)
         "local"
         accountAddress
         entryPoint
         "kernelSmartAccount"
         (getNonce accountAddress entryPoint)
         defaultValidator
         plugin
         enableSignature
         (signUserOperation currentValidator enableSignature)
         generate
         (getInitCode accountAddress generate)
         encodeDeployCallData
         (encodeCallData accountAddress currentValidator)
         (getDummySignature currentValidator enableSignature))
  end.

End Kernel.

(** ** The options of [createKernelAccount] after defaults *)

Section Defaults.
Context `{Viem}.

Definition entryPointOf (o : Options) : Address :=
  nullish (opt_entryPoint o) KERNEL_ADDRESSES.ENTRYPOINT_V0_6.

Definition indexOf (o : Options) : Z := nullish (opt_index o) 0%Z.

Definition factoryAddressOf (o : Options) : Address :=
  nullish (opt_factoryAddress o) KERNEL_ADDRESSES.FACTORY_ADDRESS.

Definition accountLogicAddressOf (o : Options) : Address :=
  nullish (opt_accountLogicAddress o) KERNEL_ADDRESSES.ACCOUNT_V2_3_LOGIC.

(** The [generateInitCode] closure of an account built from [o]. *)
Definition generateOf (o : Options) : Prog Hex :=
  generateInitCode (opt_initCode o) (opt_defaultValidator o) (indexOf o)
    (factoryAddressOf o) (accountLogicAddressOf o).

(** The [getPluginEnableSignature] closure of an account built from [o]
    at the address [a]. *)
Definition enableSignatureOf (o : Options) (a : Address)
  : Prog (option Hex) :=
  getPluginEnableSignature (opt_pluginEnableSignature o) (opt_plugin o)
    (opt_defaultValidator o) a.

(** [deployedAccountAddress ?? getAccountAddress(...)] *)
Definition resolveOf (o : Options) : Prog (option Address) :=
  match opt_deployedAccountAddress o with
  | Some a => Ret (Some a)
  | None => getAccountAddress (entryPointOf o) (generateOf o)
  end.

End Defaults.

(** ** The account client (kernelAccountClient.ts) *)

(** The options a viem transport is called with. *)
Record TransportOpts : Type := mkTransportOpts {
  t_chain : option string;
  t_pollingInterval : option Z;
  t_retryCount : option Z;
  t_timeout : option Z
}.

(** [{}] *)
Definition noOpts : TransportOpts := mkTransportOpts None None None None.

(** [{ ...opts, retryCount: 0 }] *)
Definition withoutRetries (opts : TransportOpts) : TransportOpts :=
  mkTransportOpts (t_chain opts) (t_pollingInterval opts) (Some 0%Z)
    (t_timeout opts).

(** A gas price function: the caller's own, or the closure
    [() => getUserOperationGasPrice(client)]. *)
Inductive GasPrice (G C : Type) : Type :=
| Supplied (g : G)
| FromBundler (client : C).
Arguments Supplied {G C} g.
Arguments FromBundler {G C} client.

(** The [middleware] parameter: a function, or an object with optional
    [gasPrice] and [sponsorUserOperation]. *)
Inductive Middleware (F G S : Type) : Type :=
| MwFunction (f : F)
| MwObject (gasPrice : option G) (sponsorUserOperation : option S).
Arguments MwFunction {F G S} f.
Arguments MwObject {F G S} gasPrice sponsorUserOperation.

Record SmartAccountClientConfig (T F G S R : Type) : Type :=
  mkClientConfig {
  cfg_key : option string;
  cfg_name : option string;
  cfg_bundlerTransport : TransportOpts -> T;
  cfg_entryPoint : Address;
  cfg_middleware : option (Middleware F G S);
  cfg_rest : R
}.
Arguments cfg_key {T F G S R} _.
Arguments cfg_name {T F G S R} _.
Arguments cfg_bundlerTransport {T F G S R} _ _.
Arguments cfg_entryPoint {T F G S R} _.
Arguments cfg_middleware {T F G S R} _.
Arguments cfg_rest {T F G S R} _.

(** What the client layer imports: viem's [http] and [createClient],
    permissionless' [getEntryPointVersion], and the module's own helpers
    for the Pimlico provider, gas price and client actions. *)
Class ClientEnv : Type := {
  TransportInstance : Type;
  MiddlewareFn : Type;
  GasPriceFn : Type;
  SponsorFn : Type;
  RestConfig : Type;
  Client : Type;
  KernelAccountClient : Type;
  config_key : TransportInstance -> string;
  value_url : TransportInstance -> option string;
  http : string -> TransportOpts -> TransportInstance;
  getEntryPointVersion : Address -> string;
  setPimlicoAsProvider : option string -> string;
  hasPimlicoAsProvider : string -> bool;
  createClient :
    SmartAccountClientConfig TransportInstance MiddlewareFn
      (GasPrice GasPriceFn Client) SponsorFn RestConfig ->
    string -> string -> (TransportOpts -> TransportInstance) -> string ->
    Client;
  transport_url : Client -> option string;
  extendWithActions :
    Client ->
    option (Middleware MiddlewareFn (GasPrice GasPriceFn Client) SponsorFn) ->
    KernelAccountClient
}.

Section AccountClient.
Context `{ClientEnv}.

Definition ClientMiddleware : Type :=
  Middleware MiddlewareFn (GasPrice GasPriceFn Client) SponsorFn.

Definition ClientParameters : Type :=
  SmartAccountClientConfig TransportInstance MiddlewareFn
    (GasPrice GasPriceFn Client) SponsorFn RestConfig.

Definition shouldIncludePimlicoProvider
    (bundlerTransport : TransportOpts -> TransportInstance)
    (entryPoint : Address) : bool :=
  String.eqb (config_key (bundlerTransport noOpts)) "http" &&
  String.eqb (getEntryPointVersion entryPoint) "v0.7".

(** The [transport] handed to [createClient]. *)
Definition transport (include : bool)
    (bundlerTransport : TransportOpts -> TransportInstance)
    (opts : TransportOpts) : TransportInstance :=
  let _bundlerTransport := bundlerTransport (withoutRetries opts) in
  if negb include then _bundlerTransport
  else
    http (setPimlicoAsProvider (value_url _bundlerTransport))
      (withoutRetries opts).

(** [!middleware || (typeof middleware !== "function" &&
    !middleware.gasPrice)] *)
Definition lacksGasPrice (middleware : option ClientMiddleware) : bool :=
  match middleware with
  | None => true
  | Some (MwFunction _) => false
  | Some (MwObject gasPrice _) => negb (present gasPrice)
  end.

(** [client.transport?.url && hasPimlicoAsProvider(client.transport.url)] *)
Definition pimlicoTransport (client : Client) : bool :=
  match transport_url client with
  | Some url => truthy url && hasPimlicoAsProvider url
  | None => false
  end.

(** [{ ...middleware, gasPrice }] *)
Definition withGasPrice (middleware : option ClientMiddleware)
    (gasPrice : GasPrice GasPriceFn Client) : ClientMiddleware :=
  match middleware with
  | Some (MwObject _ sponsorUserOperation) =>
      MwObject (Some gasPrice) sponsorUserOperation
  | _ => MwObject (Some gasPrice) None
  end.

(** The [middleware] handed to the client actions. *)
Definition middlewareFor (client : Client)
    (middleware : option ClientMiddleware) : option ClientMiddleware :=
  if lacksGasPrice middleware && pimlicoTransport client
  then Some (withGasPrice middleware (FromBundler client))
  else middleware.

Definition createKernelAccountClient (parameters : ClientParameters)
  : KernelAccountClient :=
  let key := nullish (cfg_key parameters) "Account" in
  let name := nullish (cfg_name parameters) "Kernel Account Client" in
  let bundlerTransport := cfg_bundlerTransport parameters in
  let entryPoint := cfg_entryPoint parameters in
  let include := shouldIncludePimlicoProvider bundlerTransport entryPoint in
  let client :=
    createClient parameters key name (transport include bundlerTransport)
      "kernelAccountClient" in
  extendWithActions client
    (middlewareFor client (cfg_middleware parameters)).

End AccountClient.

(** ** The encodings the properties refer to *)

(** The arguments of [execute(to, value, data, 0)]. *)
Definition executeArgs (tx : CallDescriptor) : list AbiValue :=
  [VAddress (to tx); VUint (value tx); VBytes (data tx); VUint 0].

(** One [{to, value, data}] triple of [executeBatch]. *)
Definition batchTriple (txn : CallDescriptor) : AbiValue :=
  VStruct [("to", VAddress (to txn));
           ("value", VUint (value txn));
           ("data", VBytes (data txn))].

(** The wording "the empty init code comes back exactly when the
    bytecode lookup gave a string longer than two characters", for one
    run of [getInitCode]. *)
Definition empty_exactly_when_deployed `{Viem} (accountAddress : Address)
    (generate : Prog Hex) (w : World) (h : list Event) : Prop :=
  fst (run (getInitCode accountAddress generate) w h) = Ok "0x" <->
  exists code : Hex,
    w h (GetBytecode accountAddress) = Ok (Some code) /\
    (2 < String.length code)%nat.

(** ** A symbolic instance of the primitives, and two worlds

    Hashes and encodings are written out as terms, so that the functions
    above evaluate on concrete inputs. *)

Module Sample.

Fixpoint show (v : AbiValue) : string :=
  match v with
  | VAddress a => a
  | VUint n => if (n =? 0)%Z then "0" else "n"
  | VBytes h => h
  | VStruct fs =>
      "{" ++
      (fix go (l : list (string * AbiValue)) : string :=
         match l with
         | [] => ""
         | (k, x) :: r => k ++ ":" ++ show x ++ ";" ++ go r
         end) fs ++ "}"
  | VArray xs =>
      "[" ++
      (fix go (l : list AbiValue) : string :=
         match l with
         | [] => ""
         | x :: r => show x ++ ";" ++ go r
         end) xs ++ "]"
  end.

Definition showAll (vs : list AbiValue) : string :=
  String.concat "," (map show vs).

Definition strip0x (h : Hex) : string :=
  if is_hex h then String.substring 2 (String.length h - 2) h else h.

Definition domainA : Eip712Domain :=
  mkDomain "0x0f" "Kernel" "0.2.3" 1
    "0x1111111111111111111111111111111111111111"
    "0x00" [].

Definition domainB : Eip712Domain :=
  mkDomain "0x1f" "Kernel" "0.2.3" 1
    "0x2222222222222222222222222222222222222222"
    "0x5a17" [7%Z; 9%Z].

#[export] Instance viem : Viem := {|
  UserOperation := unit;
  TransactionSerializable := unit;
  SerializeArgs := unit;
  TypedDataDefinition := unit;
  EncodeDeployDataParameters := unit;
  KernelExecuteAbi := [];
  KernelInitAbi := [];
  keccak256 := fun h => "keccak256(" ++ h ++ ")";
  stringToHex := fun s => "utf8(" ++ s ++ ")";
  concatHex := fun hs => "0x" ++ String.concat "" (map strip0x hs);
  isAddress := fun a => is_hex a && (String.length a =? 42)%nat;
  parseAbi := fun _ => [];
  encodeFunctionData := fun _ f args => Ok (f ++ "(" ++ showAll args ++ ")");
  encodeAbiParameters := fun _ args => Ok ("abi(" ++ showAll args ++ ")");
  decodeFunctionResult := fun _ _ d =>
    if String.eqb d "0xA" then Ok domainA
    else if String.eqb d "0xB" then Ok domainB
    else Err (ExternalError "AbiDecodingDataSizeTooSmallError");
  encodeDeployData := fun _ => Ok "0x6080";
  withEIP712DomainTypes := fun t => t;
  validateTypedData := fun _ => Ok tt;
  hashTypedData := fun _ => Ok "0xtyped"
|}.

Definition account : Address := "0xaaaaaaaaaaaaaaaaaaaaaaaaaaaaaaaaaaaaaaaa".
Definition checksummed : Address :=
  "0xD3F582F6B4814E989Ee8E96bc3175320B5A540ab".
Definition other : Address := "0xbbbbbbbbbbbbbbbbbbbbbbbbbbbbbbbbbbbbbbbb".

Definition ecdsa : KernelPlugin :=
  mkPlugin "ECDSAValidator" "0xcccccccccccccccccccccccccccccccccccccccc"
    (mkSigner "0xdddddddddddddddddddddddddddddddddddddddd").

(** A chain where the account is not deployed yet. *)
Definition undeployed : World :=
  fun _ e =>
    match e return Promise (ans e) with
    | EthCall _ _ _ => Ok "0xA"
    | GetSenderAddress _ _ => Ok (Some account)
    | GetAccountNonce _ _ => Ok 0%Z
    | GetBytecode _ => Ok None
    | SignMessage _ raw => Ok ("sig(" ++ raw ++ ")")
    | GetEnableData _ => Ok "0xdddddddddddddddddddddddddddddddddddddddd"
    | ShouldDelegateViaFallback _ => Ok true
    | SignUserOperation _ _ _ => Ok "0xsig"
    | GetDummySignature _ _ _ => Ok "0xdummy"
    | GetPluginEnableSignature _ _ _ => Ok "0xenable"
    end.

(** The same chain once the account has code. *)
Definition deployed : World :=
  fun h e =>
    match e return Promise (ans e) with
    | GetBytecode _ => Ok (Some "0x363d3d37")
    | EthCall _ _ _ => Ok "0xB"
    | e' => undeployed h e'
    end.

Definition transfer : CallDescriptor := mkCall other 5 "0x1234" None.
Definition approve : CallDescriptor :=
  mkCall other 0 "0xabcd" (Some "call").
Definition upgrade : CallDescriptor :=
  mkCall other 0 "0xfeed" (Some "delegatecall").

Definition options : Options :=
  mkOptions (Some ecdsa) None None None None None None (Some account) None.

End Sample.

(** ** Further scenarios on the symbolic instance *)

Module Scenarios.
Import Sample.

(** A world where every collaborator is unavailable. *)
Definition silent `{Viem} : World :=
  fun _ _ => Err (ExternalError "unavailable").

(** The symbolic instance with typed data that may be invalid: [false]
    does not pass validation. *)
Definition strict : Viem := {|
  UserOperation := unit;
  TransactionSerializable := unit;
  SerializeArgs := unit;
  TypedDataDefinition := bool;
  EncodeDeployDataParameters := unit;
  KernelExecuteAbi := [];
  KernelInitAbi := [];
  keccak256 := @keccak256 viem;
  stringToHex := @stringToHex viem;
  concatHex := @concatHex viem;
  isAddress := @isAddress viem;
  parseAbi := @parseAbi viem;
  encodeFunctionData := @encodeFunctionData viem;
  encodeAbiParameters := @encodeAbiParameters viem;
  decodeFunctionResult := @decodeFunctionResult viem;
  encodeDeployData := fun _ => Ok "0x6080";
  withEIP712DomainTypes := fun t => t;
  validateTypedData := fun t =>
    if t then Ok tt else Err (ExternalError "InvalidAddressError");
  hashTypedData := fun _ => Ok "0xtyped"
|}.

(** A chain whose entry point simulation yields no address. *)
Definition nowhere : World :=
  fun h e =>
    match e return Promise (ans e) with
    | GetSenderAddress _ _ => Ok None
    | e' => undeployed h e'
    end.

Definition session : KernelPlugin :=
  mkPlugin "SessionKeyValidator"
    "0xeeeeeeeeeeeeeeeeeeeeeeeeeeeeeeeeeeeeeeee"
    (mkSigner "0xffffffffffffffffffffffffffffffffffffffff").

Definition ownerless : KernelPlugin :=
  mkPlugin "ECDSAValidator" "0xcccccccccccccccccccccccccccccccccccccccc"
    (mkSigner "").

Definition fresh : Options :=
  mkOptions (Some ecdsa) None None None None None None None None.

Definition withPlugin : Options :=
  mkOptions (Some ecdsa) (Some session) None None None None None
    (Some account) None.

Definition pluginOnly : Options :=
  mkOptions None (Some session) None None None None None None None.

Definition bare : Options :=
  mkOptions None None None None None None None (Some account) None.

Definition shouting : CallDescriptor :=
  mkCall "0xAAAAAAAAAAAAAAAAAAAAAAAAAAAAAAAAAAAAAAAA" 0 "0x1234"
    (Some "call").

Definition mistyped : CallDescriptor :=
  mkCall other 0 "0x1234" (Some "delegatecall2000").

(** A client layer on pairs (transport key, URL). *)
Definition Endpoint : Type := (string * option string)%type.

#[export] Instance clientEnv : ClientEnv := {|
  TransportInstance := Endpoint;
  MiddlewareFn := unit;
  GasPriceFn := string;
  SponsorFn := string;
  RestConfig := unit;
  Client := Endpoint;
  KernelAccountClient :=
    (Endpoint *
     option (Middleware unit (GasPrice string Endpoint) string))%type;
  config_key := fst;
  value_url := snd;
  http := fun url _ => ("http", Some url);
  getEntryPointVersion := fun ep =>
    if String.eqb ep KERNEL_ADDRESSES.ENTRYPOINT_V0_6
    then "v0.6" else "v0.7";
  setPimlicoAsProvider := fun u => (nullish u "" ++ "?provider=PIMLICO")%string;
  hasPimlicoAsProvider := fun u =>
    String.eqb u "https://bundler.example?provider=PIMLICO";
  createClient := fun _ _ _ t _ => t noOpts;
  transport_url := snd;
  extendWithActions := fun c m => (c, m)
|}.

Definition bundler : TransportOpts -> Endpoint :=
  fun _ => ("http", Some "https://bundler.example").

Definition entryPointV07 : Address :=
  "0x0000000071727De22E5E9d8BAf0edAc6f37da032".

Definition ownGasPrice : ClientMiddleware :=
  MwObject (Some (Supplied "mine")) (Some "paymaster").

Definition clientParameters : ClientParameters :=
  mkClientConfig _ _ _ _ _ None None bundler entryPointV07
    (Some ownGasPrice) tt.

End Scenarios.

(** * Properties *)

Open Scope list_scope.

(** ** Lower-casing *)

Lemma lower_ascii_idem (c : ascii) :
  lower_ascii (lower_ascii c) = lower_ascii c.
Proof.
  destruct c as [[] [] [] [] [] [] [] []]; reflexivity.
Qed.

Lemma toLowerCase_idem (s : string) :
  toLowerCase (toLowerCase s) = toLowerCase s.
Proof.
  induction s as [|c s IH]; simpl.
  - reflexivity.
  - now rewrite lower_ascii_idem, IH.
Qed.

(** A string that [toLowerCase] can produce is its own lower-casing. *)
Lemma toLowerCase_fixed (s t : string) :
  toLowerCase s = t -> toLowerCase t = t.
Proof.
  intros <-. apply toLowerCase_idem.
Qed.

(** ** Running programs *)

Section RunLemmas.
Context `{Viem}.

Lemma run_bind {A B : Type} (p : Prog A) (f : A -> Prog B)
    (w : World) (h : list Event) :
  run (bind p f) w h =
  match run p w h with
  | (Ok a, h') => run (f a) w h'
  | (Err x, h') => (Err x, h')
  end.
Proof.
  revert h. induction p as [a|x|e k IH]; intros h; simpl.
  - reflexivity.
  - reflexivity.
  - apply IH.
Qed.

Lemma run_lift {A : Type} (r : Result A) (w : World) (h : list Event) :
  run (lift r) w h = (r, h).
Proof.
  destruct r; reflexivity.
Qed.

Lemma run_await {A : Type} (r : Promise A) (w : World) (h : list Event) :
  run (await r) w h = (r, h).
Proof.
  destruct r; reflexivity.
Qed.

Lemma run_request (e : Event) (w : World) (h : list Event) :
  run (request e) w h = (w h e, h ++ [e]).
Proof.
  unfold request. simpl. apply run_await.
Qed.

Lemma run_call (e : Event) (w : World) (h : list Event) :
  run (call e) w h = (Ok (w h e), h ++ [e]).
Proof.
  reflexivity.
Qed.

(** A program only ever extends the events it started from. *)
Lemma run_extends {A : Type} (p : Prog A) (w : World) (h : list Event) :
  exists t, snd (run p w h) = h ++ t.
Proof.
  revert h. induction p as [a|x|e k IH]; intros h; simpl.
  - exists []. now rewrite app_nil_r.
  - exists []. now rewrite app_nil_r.
  - destruct (IH (w h e) (h ++ [e])) as [t Ht].
    exists (e :: t). rewrite Ht, <- app_assoc. reflexivity.
Qed.

End RunLemmas.

(** ** The call-data encoder *)

Section Encoder.
Context `{Viem}.

Lemma is_call_cases (ct : option string) :
  ct = None \/ ct = Some "call" ->
  negb (truthy_opt ct) || strict_eq ct "call" = true.
Proof.
  intros [-> | ->]; reflexivity.
Qed.

(** Without the short-circuit, the [call] branch is the [execute]
    wrapper and asks nothing of the validator. *)
Lemma encodeCallData_call_wraps (accountAddress : Address)
    (currentValidator : KernelPlugin) (tx : CallDescriptor)
    (w : World) (h : list Event) :
  callType tx = None \/ callType tx = Some "call" ->
  toLowerCase (to tx) <> accountAddress ->
  run (encodeCallData accountAddress currentValidator (Single tx)) w h =
  (encodeFunctionData KernelExecuteAbi "execute" (executeArgs tx), h).
Proof.
  intros Hct Hne. unfold encodeCallData.
  rewrite (is_call_cases _ Hct).
  destruct (String.eqb_spec (toLowerCase (to tx)) accountAddress) as [E|_].
  - contradiction.
  - apply run_lift.
Qed.

(** An account address written with a capital letter is never matched. *)
Lemma encodeCallData_mixed_case_account (accountAddress : Address)
    (currentValidator : KernelPlugin) (tx : CallDescriptor)
    (w : World) (h : list Event) :
  callType tx = None \/ callType tx = Some "call" ->
  toLowerCase accountAddress <> accountAddress ->
  run (encodeCallData accountAddress currentValidator (Single tx)) w h =
  (encodeFunctionData KernelExecuteAbi "execute" (executeArgs tx), h).
Proof.
  intros Hct Hmixed. apply encodeCallData_call_wraps; [exact Hct|].
  intros E. apply Hmixed. exact (toLowerCase_fixed _ _ E).
Qed.

(** With a lower-case account address the short-circuit does fire,
    however the target is capitalised. *)
Lemma encodeCallData_fallback_lowercase_account (accountAddress : Address)
    (currentValidator : KernelPlugin) (tx : CallDescriptor)
    (w : World) (h : list Event) :
  callType tx = None \/ callType tx = Some "call" ->
  toLowerCase accountAddress = accountAddress ->
  same_address (to tx) accountAddress ->
  w h (ShouldDelegateViaFallback currentValidator) = Ok true ->
  run (encodeCallData accountAddress currentValidator (Single tx)) w h =
  (Ok (data tx), h ++ [ShouldDelegateViaFallback currentValidator]).
Proof.
  intros Hct Hlow Hsame Hw. unfold encodeCallData.
  rewrite (is_call_cases _ Hct).
  unfold same_address in Hsame. rewrite Hlow in Hsame.
  rewrite Hsame, String.eqb_refl.
  rewrite run_bind, run_request, Hw. reflexivity.
Qed.

(** C1, at the account address as the entry point simulation and the
    default constants spell it (EIP-55 capitals): a call to the account's
    own address, even one spelled identically and even when the validator
    would delegate via the fallback, is not short-circuited.  The
    [execute] wrapper is applied and [shouldDelegateViaFallback] is not
    consulted.  The claimed behaviour (raw [data] whatever the
    capitalisation) is not what the code does here. *)
Theorem encodeCallData_self_call_checksummed_account
    (currentValidator : KernelPlugin) (v : Z) (d : Hex)
    (w : World) (h : list Event) :
  let accountAddress := "0xD3F582F6B4814E989Ee8E96bc3175320B5A540ab" in
  let unset := mkCall accountAddress v d None in
  let call := mkCall accountAddress v d (Some "call") in
  same_address (to unset) accountAddress /\
  run (encodeCallData accountAddress currentValidator (Single unset)) w h =
    (encodeFunctionData KernelExecuteAbi "execute"
       [VAddress accountAddress; VUint v; VBytes d; VUint 0], h) /\
  run (encodeCallData accountAddress currentValidator (Single call)) w h =
    (encodeFunctionData KernelExecuteAbi "execute"
       [VAddress accountAddress; VUint v; VBytes d; VUint 0], h).
Proof.
  intros accountAddress unset call. split; [reflexivity|].
  split.
  - apply (encodeCallData_mixed_case_account accountAddress
             currentValidator unset w h); [now left|discriminate].
  - apply (encodeCallData_mixed_case_account accountAddress
             currentValidator call w h); [now right|discriminate].
Qed.

Lemma batchEntries_all_calls (txs : list CallDescriptor) :
  (forall txn, In txn txs -> callType txn <> Some "delegatecall") ->
  batchEntries txs = Ok (map batchTriple txs).
Proof.
  induction txs as [|txn rest IH]; intros Hall; simpl.
  - reflexivity.
  - unfold batchEntry.
    destruct (callType txn) as [ct|] eqn:Ect; simpl.
    + destruct (String.eqb_spec ct "delegatecall") as [->|_].
      * exfalso. apply (Hall txn); [now left|exact Ect].
      * rewrite IH; [reflexivity|].
        intros t Ht. apply Hall. now right.
    + rewrite IH; [reflexivity|].
      intros t Ht. apply Hall. now right.
Qed.

Lemma batchEntries_delegatecall (txs : list CallDescriptor) :
  (exists txn, In txn txs /\ callType txn = Some "delegatecall") ->
  batchEntries txs = Err (JsError "Cannot batch delegatecall").
Proof.
  induction txs as [|txn rest IH]; intros [t [Hin Ht]].
  - contradiction.
  - simpl. unfold batchEntry.
    destruct (strict_eq (callType txn) "delegatecall") eqn:E.
    + reflexivity.
    + destruct Hin as [->|Hin].
      * rewrite Ht in E. discriminate.
      * rewrite IH; [reflexivity|]. now exists t.
Qed.

(** C3: a batch with a [delegatecall] element fails with "Cannot batch
    delegatecall" whatever the encoder would have done and without any
    event; a batch without one is the [executeBatch] encoding of the
    [{to, value, data}] triples in the order of the input. *)
Theorem encodeCallData_batch (accountAddress : Address)
    (currentValidator : KernelPlugin) (txs : list CallDescriptor)
    (w : World) (h : list Event) :
  ((exists txn, In txn txs /\ callType txn = Some "delegatecall") ->
   run (encodeCallData accountAddress currentValidator (Batch txs)) w h =
   (Err (JsError "Cannot batch delegatecall"), h)) /\
  ((forall txn, In txn txs -> callType txn <> Some "delegatecall") ->
   run (encodeCallData accountAddress currentValidator (Batch txs)) w h =
   (encodeFunctionData KernelExecuteAbi "executeBatch"
      [VArray (map batchTriple txs)], h)).
Proof.
  split; intros Hyp; unfold encodeCallData; rewrite run_bind, run_lift.
  - now rewrite (batchEntries_delegatecall txs Hyp).
  - rewrite (batchEntries_all_calls txs Hyp). apply run_lift.
Qed.

(** C4: a single call (call type unset or "call") to any other address
    is exactly [execute(to, value, data, 0)]. *)
Theorem encodeCallData_call_other_target (accountAddress : Address)
    (currentValidator : KernelPlugin) (tx : CallDescriptor)
    (w : World) (h : list Event) :
  callType tx = None \/ callType tx = Some "call" ->
  ~ same_address (to tx) accountAddress ->
  run (encodeCallData accountAddress currentValidator (Single tx)) w h =
  (encodeFunctionData KernelExecuteAbi "execute"
     [VAddress (to tx); VUint (value tx); VBytes (data tx); VUint 0], h).
Proof.
  intros Hct Hother. apply encodeCallData_call_wraps; [exact Hct|].
  intros E. apply Hother. unfold same_address.
  rewrite <- E. symmetry. apply toLowerCase_idem.
Qed.

(** C9: a single [delegatecall] is [executeDelegateCall(to, data)], and
    the [value] of the descriptor has no influence on the outcome. *)
Theorem encodeCallData_delegatecall (accountAddress : Address)
    (currentValidator : KernelPlugin) (tx : CallDescriptor)
    (w : World) (h : list Event) :
  callType tx = Some "delegatecall" ->
  run (encodeCallData accountAddress currentValidator (Single tx)) w h =
    (encodeFunctionData KernelExecuteAbi "executeDelegateCall"
       [VAddress (to tx); VBytes (data tx)], h) /\
  forall v' : Z,
    run (encodeCallData accountAddress currentValidator
           (Single (mkCall (to tx) v' (data tx) (callType tx)))) w h =
    run (encodeCallData accountAddress currentValidator (Single tx)) w h.
Proof.
  intros Hct.
  assert (Hrun : forall t, callType t = Some "delegatecall" ->
    run (encodeCallData accountAddress currentValidator (Single t)) w h =
    (encodeFunctionData KernelExecuteAbi "executeDelegateCall"
       [VAddress (to t); VBytes (data t)], h)).
  { intros t Ht. unfold encodeCallData. rewrite Ht. simpl.
    apply run_lift. }
  split.
  - apply Hrun, Hct.
  - intros v'. rewrite (Hrun tx Hct).
    rewrite (Hrun (mkCall (to tx) v' (data tx) (callType tx)) Hct).
    reflexivity.
Qed.

End Encoder.

(** ** The message signer *)

Section Signer.
Context `{Viem}.

(** The constant [domainSeparator] on its own: it is the hash of the ABI
    encoding of the EIP712Domain type hash, the hashes of the decoded
    name and version, the decoded chain id and the account's own address,
    and it reads nothing else of the decoded response. *)
Lemma domainSeparator_inputs (account_address : Address) :
  (forall (decoded : Eip712Domain) (e : Hex),
     encodeAbiParameters
       [TBytes32; TBytes32; TBytes32; TUint256; TAddress]
       [VBytes (keccak256 (stringToHex
          "EIP712Domain(string name,string version,uint256 chainId,address verifyingContract)"));
        VBytes (keccak256 (stringToHex (name decoded)));
        VBytes (keccak256 (stringToHex (version decoded)));
        VUint (chainId decoded);
        VAddress account_address] = Ok e ->
     domainSeparator decoded account_address = Ok (keccak256 e)) /\
  (forall d1 d2 : Eip712Domain,
     name d1 = name d2 ->
     version d1 = version d2 ->
     chainId d1 = chainId d2 ->
     domainSeparator d1 account_address =
     domainSeparator d2 account_address).
Proof.
  split.
  - intros decoded e He. unfold domainSeparator, encoded, eip712DomainType.
    now rewrite He.
  - intros d1 d2 Hn Hv Hc. unfold domainSeparator, encoded.
    now rewrite Hn, Hv, Hc.
Qed.

(** What [signHashedMessage] does once the domain has been read and
    decoded: one [eth_call] at the logic address, then one signature
    request carrying the digest. *)
Lemma signHashedMessage_run (currentValidator : KernelPlugin)
    (logicAddress accountAddress : Address) (messageHash : Hex)
    (w : World) (h : list Event)
    (calldata domain separator : Hex) (decoded : Eip712Domain) :
  encodeFunctionData eip1271Abi "eip712Domain" [] = Ok calldata ->
  w h (EthCall logicAddress calldata "latest") = Ok domain ->
  decodeFunctionResult eip1271Abi "eip712Domain" domain = Ok decoded ->
  domainSeparator decoded accountAddress = Ok separator ->
  let ask := EthCall logicAddress calldata "latest" in
  let sign := SignMessage (signer currentValidator)
                (digest separator messageHash) in
  run (signHashedMessage currentValidator logicAddress accountAddress
         messageHash) w h =
  (w (h ++ [ask]) sign, h ++ [ask; sign]).
Proof.
  intros Hc Hw Hd Hs ask sign. unfold signHashedMessage.
  rewrite run_bind, run_lift, Hc.
  rewrite run_bind, run_request, Hw.
  rewrite run_bind, run_lift, Hd.
  rewrite run_bind, run_lift, Hs.
  fold ask sign.
  generalize (run_request sign w (h ++ [ask])).
  rewrite <- app_assoc. simpl. intros R. exact R.
Qed.

(** The events of [signHashedMessage] do not depend on what the decoded
    response says beyond name, version and chain id. *)
Lemma signHashedMessage_ignores_rest (currentValidator : KernelPlugin)
    (logicAddress accountAddress : Address) (messageHash : Hex)
    (w1 w2 : World) (h : list Event)
    (calldata r1 r2 : Hex) (d1 d2 : Eip712Domain) :
  encodeFunctionData eip1271Abi "eip712Domain" [] = Ok calldata ->
  w1 h (EthCall logicAddress calldata "latest") = Ok r1 ->
  w2 h (EthCall logicAddress calldata "latest") = Ok r2 ->
  decodeFunctionResult eip1271Abi "eip712Domain" r1 = Ok d1 ->
  decodeFunctionResult eip1271Abi "eip712Domain" r2 = Ok d2 ->
  name d1 = name d2 ->
  version d1 = version d2 ->
  chainId d1 = chainId d2 ->
  snd (run (signHashedMessage currentValidator logicAddress accountAddress
              messageHash) w1 h) =
  snd (run (signHashedMessage currentValidator logicAddress accountAddress
              messageHash) w2 h).
Proof.
  intros Hc Hw1 Hw2 Hd1 Hd2 Hn Hv Hi.
  assert (Hsep : domainSeparator d1 accountAddress =
                 domainSeparator d2 accountAddress).
  { unfold domainSeparator, encoded. now rewrite Hn, Hv, Hi. }
  destruct (domainSeparator d2 accountAddress) as [separator|x] eqn:E2.
  - rewrite (signHashedMessage_run currentValidator logicAddress
               accountAddress messageHash w1 h calldata r1 separator d1
               Hc Hw1 Hd1 Hsep).
    rewrite (signHashedMessage_run currentValidator logicAddress
               accountAddress messageHash w2 h calldata r2 separator d2
               Hc Hw2 Hd2 E2).
    reflexivity.
  - unfold signHashedMessage.
    rewrite !run_bind, !run_lift, Hc.
    rewrite !run_bind, !run_request, Hw1, Hw2.
    rewrite !run_bind, !run_lift, Hd1, Hd2.
    rewrite !run_bind, !run_lift, Hsep, E2.
    reflexivity.
Qed.

(** C2: in [signHashedMessage], the domain separator that goes into the
    signed digest is keccak256 of the ABI encoding of
    (keccak256("EIP712Domain(string name,string version,uint256
    chainId,address verifyingContract)"), keccak256(name),
    keccak256(version), chainId, account address), with name, version and
    chain id decoded from the answer of the [eip712Domain()] call and the
    account's own address in the verifying-contract slot.  Consequently
    a second answer that agrees on name, version and chain id, whatever
    its verifying contract, salt, extensions and fields bitmap, makes
    [signHashedMessage] request a signature over the very same digest,
    built on the very same separator. *)
Theorem signHashedMessage_domain_separator
    (currentValidator : KernelPlugin)
    (logicAddress accountAddress : Address) (messageHash : Hex)
    (h : list Event) (calldata e : Hex)
    (w1 w2 : World) (r1 r2 : Hex) (d1 d2 : Eip712Domain) :
  encodeFunctionData eip1271Abi "eip712Domain" [] = Ok calldata ->
  w1 h (EthCall logicAddress calldata "latest") = Ok r1 ->
  decodeFunctionResult eip1271Abi "eip712Domain" r1 = Ok d1 ->
  encodeAbiParameters
    [TBytes32; TBytes32; TBytes32; TUint256; TAddress]
    [VBytes (keccak256 (stringToHex
       "EIP712Domain(string name,string version,uint256 chainId,address verifyingContract)"));
     VBytes (keccak256 (stringToHex (name d1)));
     VBytes (keccak256 (stringToHex (version d1)));
     VUint (chainId d1);
     VAddress accountAddress] = Ok e ->
  let separator := keccak256 e in
  let ask := EthCall logicAddress calldata "latest" in
  let sign :=
    SignMessage (signer currentValidator)
      (keccak256 (concatHex ["0x1901"; separator; messageHash])) in
  run (signHashedMessage currentValidator logicAddress accountAddress
         messageHash) w1 h =
    (w1 (h ++ [ask]) sign, h ++ [ask; sign]) /\
  (w2 h (EthCall logicAddress calldata "latest") = Ok r2 ->
   decodeFunctionResult eip1271Abi "eip712Domain" r2 = Ok d2 ->
   name d2 = name d1 ->
   version d2 = version d1 ->
   chainId d2 = chainId d1 ->
   run (signHashedMessage currentValidator logicAddress accountAddress
          messageHash) w2 h =
     (w2 (h ++ [ask]) sign, h ++ [ask; sign])).
Proof.
  intros Hc Hw1 Hd1 He separator ask sign.
  assert (Hsep1 : domainSeparator d1 accountAddress = Ok separator).
  { unfold domainSeparator, encoded, eip712DomainType. now rewrite He. }
  split.
  - exact (signHashedMessage_run currentValidator logicAddress
             accountAddress messageHash w1 h calldata r1 separator d1
             Hc Hw1 Hd1 Hsep1).
  - intros Hw2 Hd2 Hn Hv Hi.
    assert (Hsep2 : domainSeparator d2 accountAddress = Ok separator).
    { rewrite <- Hsep1. unfold domainSeparator, encoded.
      now rewrite Hn, Hv, Hi. }
    exact (signHashedMessage_run currentValidator logicAddress
             accountAddress messageHash w2 h calldata r2 separator d2
             Hc Hw2 Hd2 Hsep2).
Qed.

(** C6: [signMessage] hashes a string message as keccak256 of its UTF-8
    bytes and raw bytes as their keccak256, wraps the hash as
    keccak256(0x1901 ++ domainSeparator ++ messageHash), and asks the
    current validator's signer to sign exactly that digest. *)
Theorem signMessage_signs_digest (currentValidator : KernelPlugin)
    (accountAddress accountLogicAddress : Address)
    (message : SignableMessage) (w : World) (h : list Event)
    (calldata domain separator : Hex) (decoded : Eip712Domain) :
  encodeFunctionData eip1271Abi "eip712Domain" [] = Ok calldata ->
  w h (EthCall accountLogicAddress calldata "latest") = Ok domain ->
  decodeFunctionResult eip1271Abi "eip712Domain" domain = Ok decoded ->
  domainSeparator decoded accountAddress = Ok separator ->
  let messageHash :=
    match message with
    | MsgString s => keccak256 (stringToHex s)
    | MsgRaw raw => keccak256 raw
    end in
  let finalDigest := keccak256 (concatHex ["0x1901"; separator; messageHash]) in
  let ask := EthCall accountLogicAddress calldata "latest" in
  let sign := SignMessage (signer currentValidator) finalDigest in
  run (signMessage currentValidator accountAddress accountLogicAddress
         message) w h =
  (w (h ++ [ask]) sign, h ++ [ask; sign]).
Proof.
  intros Hc Hw Hd Hs messageHash finalDigest ask sign.
  unfold signMessage.
  exact (signHashedMessage_run currentValidator accountLogicAddress
           accountAddress (messageHashOf message) w h calldata domain
           separator decoded Hc Hw Hd Hs).
Qed.

(** Raw transaction signing throws, asking nothing of anyone. *)
Lemma signTransaction_run (tx : TransactionSerializable)
    (args : SerializeArgs) (w : World) (h : list Event) :
  run (signTransaction tx args) w h =
  (Err SignTransactionNotSupportedBySmartAccount, h).
Proof.
  reflexivity.
Qed.

End Signer.

(** ** The init-code builder *)

Section InitCode.
Context `{Viem}.

(** After the enable data has been requested, building the init code is
    a pure computation: no event, and an outcome fixed by the six
    arguments. *)
Lemma getAccountInitCode_pure (owner : Address) (index : Z)
    (factoryAddress accountLogicAddress validatorAddress : Address)
    (enableData : Promise Hex) :
  exists r : Result Hex, forall (w : World) (h : list Event),
    run (getAccountInitCode owner index factoryAddress accountLogicAddress
           validatorAddress enableData) w h = (r, h).
Proof.
  unfold getAccountInitCode.
  destruct (truthy owner); simpl.
  2: { eexists. intros w h. reflexivity. }
  destruct enableData as [awaited|x]; simpl.
  2: { eexists. intros w h. reflexivity. }
  destruct (encodeFunctionData KernelInitAbi "initialize"
              [VAddress validatorAddress; VBytes awaited])
    as [initialisationData|x]; simpl.
  2: { eexists. intros w h. reflexivity. }
  destruct (encodeFunctionData createAccountAbi "createAccount"
              [VAddress accountLogicAddress; VBytes initialisationData;
               VUint index]) as [createAccountCall|x]; simpl.
  - eexists. intros w h. reflexivity.
  - eexists. intros w h. reflexivity.
Qed.

Lemma generateInitCode_override (initCode : Hex)
    (defaultValidator : option KernelPlugin) (index : Z)
    (factoryAddress accountLogicAddress : Address)
    (w : World) (h : list Event) :
  is_hex initCode = true ->
  run (generateInitCode (Some initCode) defaultValidator index
         factoryAddress accountLogicAddress) w h = (Ok initCode, h).
Proof.
  intros Hhex. unfold generateInitCode.
  destruct initCode as [|c s]; [discriminate|]. reflexivity.
Qed.

Lemma is_hex_truthy (s : string) : is_hex s = true -> truthy s = true.
Proof.
  destruct s; [discriminate|reflexivity].
Qed.

Lemma generateInitCode_built (dv : KernelPlugin) (index : Z)
    (factoryAddress accountLogicAddress : Address)
    (w : World) (h : list Event)
    (enableData initialisationData createAccountCall : Hex) :
  is_hex (signer_address (signer dv)) = true ->
  w h (GetEnableData dv) = Ok enableData ->
  encodeFunctionData KernelInitAbi "initialize"
    [VAddress (plugin_address dv); VBytes enableData] =
    Ok initialisationData ->
  encodeFunctionData createAccountAbi "createAccount"
    [VAddress accountLogicAddress; VBytes initialisationData; VUint index] =
    Ok createAccountCall ->
  run (generateInitCode None (Some dv) index factoryAddress
         accountLogicAddress) w h =
  (Ok (concatHex [factoryAddress; createAccountCall]),
   h ++ [GetEnableData dv]).
Proof.
  intros Howner Hw Hinit Hcreate. unfold generateInitCode.
  rewrite run_bind, run_call, Hw. unfold getAccountInitCode.
  rewrite (is_hex_truthy _ Howner). simpl.
  rewrite Hinit. simpl. rewrite Hcreate. reflexivity.
Qed.

Lemma generateInitCode_deterministic (dv1 dv2 : KernelPlugin) (index : Z)
    (factoryAddress accountLogicAddress : Address)
    (w1 w2 : World) (h1 h2 : list Event) :
  signer_address (signer dv1) = signer_address (signer dv2) ->
  plugin_address dv1 = plugin_address dv2 ->
  w1 h1 (GetEnableData dv1) = w2 h2 (GetEnableData dv2) ->
  fst (run (generateInitCode None (Some dv1) index factoryAddress
              accountLogicAddress) w1 h1) =
  fst (run (generateInitCode None (Some dv2) index factoryAddress
              accountLogicAddress) w2 h2).
Proof.
  intros Hown Haddr Hdata. unfold generateInitCode.
  rewrite !run_bind, !run_call. rewrite Hown, Haddr, Hdata.
  destruct (getAccountInitCode_pure (signer_address (signer dv2)) index
              factoryAddress accountLogicAddress (plugin_address dv2)
              (w2 h2 (GetEnableData dv2))) as [r Hr].
  now rewrite !Hr.
Qed.

(** C5: [generateInitCode] hands back an explicit init code as it is;
    failing that, with a default validator, it is the factory address
    followed by the encoding of [createAccount(logic, initialize(validator,
    enableData), index)], the enable data being the awaited answer of
    [getEnableData()]; with neither, it fails with "No init code or
    default validator provided"; and its outcome is fixed by owner, index,
    factory address, logic address, validator address and enable data. *)
Theorem generateInitCode_cases (index : Z)
    (factoryAddress accountLogicAddress : Address) :
  (forall (initCode : Hex) (defaultValidator : option KernelPlugin)
          (w : World) (h : list Event),
     is_hex initCode = true ->
     run (generateInitCode (Some initCode) defaultValidator index
            factoryAddress accountLogicAddress) w h = (Ok initCode, h)) /\
  (forall (dv : KernelPlugin) (w : World) (h : list Event)
          (enableData initialisationData createAccountCall : Hex),
     is_hex (signer_address (signer dv)) = true ->
     w h (GetEnableData dv) = Ok enableData ->
     encodeFunctionData KernelInitAbi "initialize"
       [VAddress (plugin_address dv); VBytes enableData] =
       Ok initialisationData ->
     encodeFunctionData createAccountAbi "createAccount"
       [VAddress accountLogicAddress; VBytes initialisationData;
        VUint index] = Ok createAccountCall ->
     run (generateInitCode None (Some dv) index factoryAddress
            accountLogicAddress) w h =
     (Ok (concatHex [factoryAddress; createAccountCall]),
      h ++ [GetEnableData dv])) /\
  (forall (w : World) (h : list Event),
     run (generateInitCode None None index factoryAddress
            accountLogicAddress) w h =
     (Err (JsError "No init code or default validator provided"), h)) /\
  (forall (dv1 dv2 : KernelPlugin) (w1 w2 : World) (h1 h2 : list Event),
     signer_address (signer dv1) = signer_address (signer dv2) ->
     plugin_address dv1 = plugin_address dv2 ->
     w1 h1 (GetEnableData dv1) = w2 h2 (GetEnableData dv2) ->
     fst (run (generateInitCode None (Some dv1) index factoryAddress
                 accountLogicAddress) w1 h1) =
     fst (run (generateInitCode None (Some dv2) index factoryAddress
                 accountLogicAddress) w2 h2)).
Proof.
  repeat split.
  - intros. now apply generateInitCode_override.
  - intros. now apply generateInitCode_built with
      (enableData := enableData) (initialisationData := initialisationData).
  - intros. now apply generateInitCode_deterministic.
Qed.

End InitCode.

(** ** The assembled handle *)

Section Handle.
Context `{Viem}.

Lemma currentValidatorOf_none (plugin defaultValidator : option KernelPlugin) :
  currentValidatorOf plugin defaultValidator = None <->
  negb (present defaultValidator) && negb (present plugin) = true.
Proof.
  destruct plugin, defaultValidator; simpl; split; intros E;
    try reflexivity; discriminate.
Qed.

(** The handle that [createKernelAccount] returns once the address
    [a] is resolved, for the validator [cv] in charge. *)
Lemma createKernelAccount_handle (o : Options) (w : World)
    (h h' : list Event) (acc : KernelSmartAccount) :
  run (createKernelAccount o) w h = (Ok acc, h') ->
  exists (cv : KernelPlugin) (a : Address),
    currentValidatorOf (opt_plugin o) (opt_defaultValidator o) = Some cv /\
    truthy a = true /\
    isAddress a = true /\
    sa_address acc = a /\
    sa_signTransaction acc = signTransaction /\
    sa_encodeCallData acc = encodeCallData a cv /\
    (forall d, opt_deployedAccountAddress o = Some d -> a = d /\ h' = h).
Proof.
  unfold createKernelAccount.
  destruct (negb (present (opt_defaultValidator o)) &&
            negb (present (opt_plugin o))); [discriminate|].
  destruct (currentValidatorOf (opt_plugin o) (opt_defaultValidator o))
    as [cv|]; [|discriminate].
  rewrite run_bind.
  destruct (run
      match opt_deployedAccountAddress o with
      | Some a => Ret (Some a)
      | None => _
      end w h) as [[resolved|x] h1] eqn:Eres; [|discriminate].
  destruct resolved as [a|]; simpl; [|discriminate].
  destruct (truthy a) eqn:Et; simpl; [|discriminate].
  rewrite run_bind, run_lift. unfold toAccount. simpl.
  destruct (isAddress a) eqn:Ea; simpl; [|discriminate].
  intros E. injection E as <- <-.
  exists cv, a.
  do 6 (split; [first [assumption | reflexivity]|]).
  intros d Hd. rewrite Hd in Eres. simpl in Eres.
  injection Eres as Hda Hh. subst d h1. split; reflexivity.
Qed.

(** C7: on every handle that [createKernelAccount] returns, and for all
    arguments, [signTransaction] fails with
    [SignTransactionNotSupportedBySmartAccount]; no signature is produced
    and no collaborator is asked. *)
Theorem signTransaction_not_supported (o : Options) (w : World)
    (h h' : list Event) (acc : KernelSmartAccount) :
  run (createKernelAccount o) w h = (Ok acc, h') ->
  forall (tx : TransactionSerializable) (args : SerializeArgs)
         (w2 : World) (h2 : list Event),
    run (sa_signTransaction acc tx args) w2 h2 =
    (Err SignTransactionNotSupportedBySmartAccount, h2).
Proof.
  intros Hrun tx args w2 h2.
  destruct (createKernelAccount_handle o w h h' acc Hrun)
    as (cv & a & _ & _ & _ & _ & Hsign & _).
  rewrite Hsign. reflexivity.
Qed.

Lemma createKernelAccount_override_silent (o : Options) (a : Address)
    (w : World) (h : list Event) :
  opt_deployedAccountAddress o = Some a ->
  snd (run (createKernelAccount o) w h) = h.
Proof.
  intros Ha. unfold createKernelAccount. rewrite Ha.
  destruct (negb (present (opt_defaultValidator o)) &&
            negb (present (opt_plugin o))); [reflexivity|].
  destruct (currentValidatorOf (opt_plugin o) (opt_defaultValidator o))
    as [cv|]; [|reflexivity].
  rewrite run_bind. simpl.
  destruct (truthy a); simpl; [|reflexivity].
  rewrite run_bind, run_lift. unfold toAccount. simpl.
  destruct (isAddress a); reflexivity.
Qed.

Lemma createKernelAccount_override_succeeds (o : Options) (a : Address)
    (w : World) (h : list Event) :
  opt_deployedAccountAddress o = Some a ->
  present (opt_defaultValidator o) || present (opt_plugin o) = true ->
  is_hex a = true ->
  isAddress a = true ->
  exists acc : KernelSmartAccount,
    run (createKernelAccount o) w h = (Ok acc, h) /\ sa_address acc = a.
Proof.
  intros Ha Hv Hhex Haddr. unfold createKernelAccount. rewrite Ha.
  destruct (negb (present (opt_defaultValidator o)) &&
            negb (present (opt_plugin o))) eqn:Eg.
  { destruct (opt_defaultValidator o), (opt_plugin o); discriminate. }
  destruct (currentValidatorOf (opt_plugin o) (opt_defaultValidator o))
    as [cv|] eqn:Ecv.
  2: { apply currentValidatorOf_none in Ecv. congruence. }
  rewrite run_bind. simpl.
  rewrite (is_hex_truthy a Hhex). simpl.
  rewrite run_bind, run_lift. unfold toAccount. simpl.
  rewrite Haddr. simpl. eexists. split; reflexivity.
Qed.

(** C8: with a [deployedAccountAddress] override, [createKernelAccount]
    asks nothing of any collaborator (no init code is generated, no
    [getEnableData], no sender-address simulation), whether it then
    succeeds or not; every handle it returns has the override as its
    address; and it does return one when a validator or plugin is present
    and the override is a well-formed address. *)
Theorem createKernelAccount_deployed_override (o : Options) (a : Address)
    (w : World) (h : list Event) :
  opt_deployedAccountAddress o = Some a ->
  snd (run (createKernelAccount o) w h) = h /\
  (forall (acc : KernelSmartAccount) (h' : list Event),
     run (createKernelAccount o) w h = (Ok acc, h') -> sa_address acc = a) /\
  (present (opt_defaultValidator o) || present (opt_plugin o) = true ->
   is_hex a = true ->
   isAddress a = true ->
   exists acc : KernelSmartAccount,
     run (createKernelAccount o) w h = (Ok acc, h) /\ sa_address acc = a).
Proof.
  intros Ha. split; [|split].
  - now apply createKernelAccount_override_silent with (a := a).
  - intros acc h' Hrun.
    destruct (createKernelAccount_handle o w h h' acc Hrun)
      as (cv & a' & _ & _ & _ & Haddr & _ & _ & Hov).
    destruct (Hov a Ha) as [-> _]. exact Haddr.
  - intros Hv Hhex Haddr.
    now apply createKernelAccount_override_succeeds.
Qed.

(** C10, amended: when the bytecode lookup gives a string longer than
    two characters, [getInitCode] returns "0x"; when it gives [undefined]
    or exactly "0x", [getInitCode] continues as [generateInitCode()] and
    returns whatever that returns. *)
Theorem getInitCode_cases (accountAddress : Address) (generate : Prog Hex)
    (w : World) (h : list Event) :
  (forall code : Hex,
     w h (GetBytecode accountAddress) = Ok (Some code) ->
     (2 < String.length code)%nat ->
     run (getInitCode accountAddress generate) w h =
     (Ok "0x", h ++ [GetBytecode accountAddress])) /\
  (w h (GetBytecode accountAddress) = Ok None \/
   w h (GetBytecode accountAddress) = Ok (Some "0x") ->
   run (getInitCode accountAddress generate) w h =
   run generate w (h ++ [GetBytecode accountAddress])).
Proof.
  split.
  - intros code Hw Hlen. unfold getInitCode.
    rewrite run_bind, run_request, Hw. simpl.
    destruct (Nat.ltb_spec 2 (String.length code)); [reflexivity|lia].
  - intros Hw. unfold getInitCode. rewrite run_bind, run_request.
    destruct Hw as [-> | ->]; reflexivity.
Qed.

End Handle.

(** ** More on the call-data encoder *)

Section EncoderOutcomes.
Context `{Viem}.

(** X1: when the lower-cased target is the account address as stored, a
    single call (call type unset or "call") consults the validator once
    and its answer decides everything: [true] gives the raw data,
    [false] gives the [execute] wrapper, a throw is passed on. *)
Theorem encodeCallData_self_call_outcomes (accountAddress : Address)
    (currentValidator : KernelPlugin) (tx : CallDescriptor)
    (w : World) (h : list Event) :
  callType tx = None \/ callType tx = Some "call" ->
  toLowerCase (to tx) = accountAddress ->
  run (encodeCallData accountAddress currentValidator (Single tx)) w h =
  (match w h (ShouldDelegateViaFallback currentValidator) with
   | Ok true => Ok (data tx)
   | Ok false =>
       encodeFunctionData KernelExecuteAbi "execute" (executeArgs tx)
   | Err x => Err x
   end,
   h ++ [ShouldDelegateViaFallback currentValidator]).
Proof.
  intros Hct Hself. unfold encodeCallData.
  rewrite (is_call_cases _ Hct), Hself, String.eqb_refl.
  rewrite run_bind, run_request.
  destruct (w h (ShouldDelegateViaFallback currentValidator)) as [[|]|x].
  - reflexivity.
  - apply run_lift.
  - reflexivity.
Qed.

(** X2: a single descriptor whose call type is a non-empty string other
    than "call" and "delegatecall" fails with "Invalid call type"; nothing
    is encoded and nobody is asked. *)
Theorem encodeCallData_invalid_call_type (accountAddress : Address)
    (currentValidator : KernelPlugin) (tx : CallDescriptor) (s : string)
    (w : World) (h : list Event) :
  callType tx = Some s ->
  s <> "" -> s <> "call" -> s <> "delegatecall" ->
  run (encodeCallData accountAddress currentValidator (Single tx)) w h =
  (Err (JsError "Invalid call type"), h).
Proof.
  intros Hct Hne Hcall Hdel. unfold encodeCallData. rewrite Hct. simpl.
  unfold truthy.
  destruct (String.eqb_spec s "") as [E|_]; [contradiction|].
  destruct (String.eqb_spec s "call") as [E|_]; [contradiction|].
  destruct (String.eqb_spec s "delegatecall") as [E|_]; [contradiction|].
  reflexivity.
Qed.

(** X3: whatever the request, [encodeCallData] asks at most one thing of
    its collaborators, namely the current validator's
    [shouldDelegateViaFallback]; it reads no chain state and requests no
    signature. *)
Theorem encodeCallData_events (accountAddress : Address)
    (currentValidator : KernelPlugin) (request : KernelEncodeCallDataArgs)
    (w : World) (h : list Event) :
  snd (run (encodeCallData accountAddress currentValidator request) w h)
    = h \/
  snd (run (encodeCallData accountAddress currentValidator request) w h)
    = h ++ [ShouldDelegateViaFallback currentValidator].
Proof.
  destruct request as [tx|txs]; unfold encodeCallData.
  - destruct (negb (truthy_opt (callType tx)) ||
              strict_eq (callType tx) "call").
    + destruct (String.eqb (toLowerCase (to tx)) accountAddress).
      * right. rewrite run_bind, run_request.
        destruct (w h (ShouldDelegateViaFallback currentValidator))
          as [[|]|x]; try reflexivity.
        now rewrite run_lift.
      * left. now rewrite run_lift.
    + destruct (strict_eq (callType tx) "delegatecall").
      * left. now rewrite run_lift.
      * left. reflexivity.
  - left. rewrite run_bind, run_lift.
    destruct (batchEntries txs); [now rewrite run_lift|reflexivity].
Qed.

(** X4: the deploy call data is what [encodeCallData] gives for a single
    delegatecall to the CreateCall library carrying
    [performCreate(0, deploymentData)], whatever the account and the
    value of that descriptor. *)
Theorem encodeDeployCallData_as_delegatecall
    (_tx : EncodeDeployDataParameters) (deploymentData performCreate : Hex)
    (accountAddress : Address) (currentValidator : KernelPlugin) (v : Z)
    (w : World) (h : list Event) :
  encodeDeployData _tx = Ok deploymentData ->
  encodeFunctionData createCallAbi "performCreate"
    [VUint 0; VBytes deploymentData] = Ok performCreate ->
  run (encodeDeployCallData _tx) w h =
  run (encodeCallData accountAddress currentValidator
         (Single (mkCall "0x9b35Af71d77eaf8d7e40252370304687390A1A52" v
                    performCreate (Some "delegatecall")))) w h.
Proof.
  intros Hd Hp. unfold encodeDeployCallData.
  rewrite run_bind, run_lift, Hd.
  rewrite run_bind, run_lift, Hp.
  unfold encodeCallData. simpl. reflexivity.
Qed.

End EncoderOutcomes.

(** ** More on the init-code builder and the signer *)

Section BuilderAndSigner.
Context `{Viem}.

(** X5: with a default validator whose signer has an empty address,
    [generateInitCode] fails with "Owner account not found"; by then
    [getEnableData()] has been called, and its outcome is ignored. *)
Theorem generateInitCode_owner_missing (dv : KernelPlugin) (index : Z)
    (factoryAddress accountLogicAddress : Address)
    (w : World) (h : list Event) :
  signer_address (signer dv) = "" ->
  run (generateInitCode None (Some dv) index factoryAddress
         accountLogicAddress) w h =
  (Err (JsError "Owner account not found"), h ++ [GetEnableData dv]).
Proof.
  intros Howner. unfold generateInitCode.
  rewrite run_bind, run_call. unfold getAccountInitCode.
  rewrite Howner. reflexivity.
Qed.

(** X6: when the validator's [getEnableData()] rejects, [generateInitCode]
    rejects with the same error and nothing is encoded. *)
Theorem generateInitCode_enable_data_rejected (dv : KernelPlugin)
    (index : Z) (factoryAddress accountLogicAddress : Address)
    (w : World) (h : list Event) (x : Error) :
  signer_address (signer dv) <> "" ->
  w h (GetEnableData dv) = Err x ->
  run (generateInitCode None (Some dv) index factoryAddress
         accountLogicAddress) w h =
  (Err x, h ++ [GetEnableData dv]).
Proof.
  intros Howner Hw. unfold generateInitCode.
  rewrite run_bind, run_call, Hw. unfold getAccountInitCode, truthy.
  destruct (String.eqb_spec (signer_address (signer dv)) "") as [E|_];
    [contradiction|].
  reflexivity.
Qed.

(** X7: [signHashedMessage] requests at most one signature, and only
    after one [eth_call] at the logic address; when it stops before the
    signature request, it has failed. *)
Theorem signHashedMessage_events (currentValidator : KernelPlugin)
    (logicAddress accountAddress : Address) (messageHash : Hex)
    (w : World) (h : list Event) :
  let r := run (signHashedMessage currentValidator logicAddress
                  accountAddress messageHash) w h in
  ((exists x, fst r = Err x) /\ snd r = h) \/
  ((exists x, fst r = Err x) /\
   exists calldata, snd r = h ++ [EthCall logicAddress calldata "latest"]) \/
  (exists calldata separator,
     snd r = h ++ [EthCall logicAddress calldata "latest";
                   SignMessage (signer currentValidator)
                     (digest separator messageHash)]).
Proof.
  unfold signHashedMessage. cbv zeta.
  rewrite run_bind, run_lift.
  destruct (encodeFunctionData eip1271Abi "eip712Domain" [])
    as [calldata|x].
  2: { left. split; [now exists x|reflexivity]. }
  rewrite run_bind, run_request.
  destruct (w h (EthCall logicAddress calldata "latest")) as [domain|x].
  2: { right. left. split; [now exists x|now exists calldata]. }
  rewrite run_bind, run_lift.
  destruct (decodeFunctionResult eip1271Abi "eip712Domain" domain)
    as [decoded|x].
  2: { right. left. split; [now exists x|now exists calldata]. }
  rewrite run_bind, run_lift.
  destruct (domainSeparator decoded accountAddress) as [separator|x].
  2: { right. left. split; [now exists x|now exists calldata]. }
  right. right. exists calldata, separator.
  generalize (run_request
                (SignMessage (signer currentValidator)
                   (digest separator messageHash)) w
                (h ++ [EthCall logicAddress calldata "latest"])).
  simpl. intros R. rewrite R. simpl. now rewrite <- app_assoc.
Qed.

(** X8: when the [eth_call] for [eip712Domain()] rejects, or its answer
    cannot be decoded, [signHashedMessage] fails with that error and the
    signer is not asked. *)
Theorem signHashedMessage_domain_failure (currentValidator : KernelPlugin)
    (logicAddress accountAddress : Address) (messageHash : Hex)
    (w : World) (h : list Event) (calldata : Hex) (x : Error) :
  encodeFunctionData eip1271Abi "eip712Domain" [] = Ok calldata ->
  w h (EthCall logicAddress calldata "latest") = Err x \/
  (exists domain,
     w h (EthCall logicAddress calldata "latest") = Ok domain /\
     decodeFunctionResult eip1271Abi "eip712Domain" domain = Err x) ->
  run (signHashedMessage currentValidator logicAddress accountAddress
         messageHash) w h =
  (Err x, h ++ [EthCall logicAddress calldata "latest"]).
Proof.
  intros Hc Hfail. unfold signHashedMessage.
  rewrite run_bind, run_lift, Hc.
  rewrite run_bind, run_request.
  destruct Hfail as [Hw|[domain [Hw Hd]]]; rewrite Hw.
  - reflexivity.
  - rewrite run_bind, run_lift, Hd. reflexivity.
Qed.

(** X9: [signTypedData] validates before anything else: when
    [validateTypedData] throws, it fails with that error without reading
    the chain or asking for a signature; when the data is valid and
    hashes to [typedHash], it goes on exactly as [signHashedMessage] on
    that hash. *)
Theorem signTypedData_validates_first (currentValidator : KernelPlugin)
    (accountAddress accountLogicAddress : Address)
    (typedData : TypedDataDefinition) (w : World) (h : list Event) :
  (forall x,
     validateTypedData (withEIP712DomainTypes typedData) = Err x ->
     run (signTypedData currentValidator accountAddress accountLogicAddress
            typedData) w h = (Err x, h)) /\
  (forall typedHash,
     validateTypedData (withEIP712DomainTypes typedData) = Ok tt ->
     hashTypedData typedData = Ok typedHash ->
     run (signTypedData currentValidator accountAddress accountLogicAddress
            typedData) w h =
     run (signHashedMessage currentValidator accountLogicAddress
            accountAddress typedHash) w h).
Proof.
  split.
  - intros x Hv. unfold signTypedData.
    rewrite run_bind, run_lift, Hv. reflexivity.
  - intros typedHash Hv Hh. unfold signTypedData.
    rewrite run_bind, run_lift, Hv.
    rewrite run_bind, run_lift, Hh. reflexivity.
Qed.

(** X10: the plugin-enable signature: one supplied at construction is
    returned without asking the validator, even when a plugin and a
    default validator are both there; otherwise, with both, the default
    validator is asked for a signature over the account address and the
    plugin; with only one of them there is none and nobody is asked. *)
Theorem getPluginEnableSignature_cases (accountAddress : Address)
    (w : World) (h : list Event) :
  (forall (s : Hex) (plugin defaultValidator : option KernelPlugin),
     is_hex s = true ->
     run (getPluginEnableSignature (Some s) plugin defaultValidator
            accountAddress) w h = (Ok (Some s), h)) /\
  (forall (p dv : KernelPlugin),
     run (getPluginEnableSignature None (Some p) (Some dv)
            accountAddress) w h =
     (match w h (GetPluginEnableSignature dv accountAddress p) with
      | Ok s => Ok (Some s)
      | Err x => Err x
      end,
      h ++ [GetPluginEnableSignature dv accountAddress p])) /\
  (forall (plugin defaultValidator : option KernelPlugin),
     plugin = None \/ defaultValidator = None ->
     run (getPluginEnableSignature None plugin defaultValidator
            accountAddress) w h = (Ok None, h)).
Proof.
  split; [|split].
  - intros s plugin defaultValidator Hs. unfold getPluginEnableSignature.
    simpl. now rewrite (is_hex_truthy s Hs).
  - intros p dv. unfold getPluginEnableSignature, request. simpl.
    destruct (w h (GetPluginEnableSignature dv accountAddress p));
      reflexivity.
  - intros plugin defaultValidator [-> | ->];
      unfold getPluginEnableSignature; simpl.
    + reflexivity.
    + destruct plugin; reflexivity.
Qed.

End BuilderAndSigner.

(** ** More on the construction of the handle *)

Section Construction.
Context `{Viem}.

(** A handle that [createKernelAccount] returns is assembled from the
    options, the validator in charge and the resolved address. *)
Lemma createKernelAccount_fields (o : Options) (w : World)
    (h h' : list Event) (acc : KernelSmartAccount) :
  run (createKernelAccount o) w h = (Ok acc, h') ->
  exists (cv : KernelPlugin) (a : Address),
    currentValidatorOf (opt_plugin o) (opt_defaultValidator o) = Some cv /\
    run (resolveOf o) w h = (Ok (Some a), h') /\
    truthy a = true /\
    isAddress a = true /\
    acc = mkAccount a
            (signMessage cv a (accountLogicAddressOf o))
            signTransaction
            (signTypedData cv a (accountLogicAddressOf o))
            "local" a (entryPointOf o) "kernelSmartAccount"
            (getNonce a (entryPointOf o))
            (opt_defaultValidator o) (opt_plugin o)
            (enableSignatureOf o a)
            (signUserOperation cv (enableSignatureOf o a))
            (generateOf o)
            (getInitCode a (generateOf o))
            encodeDeployCallData
            (encodeCallData a cv)
            (getDummySignature cv (enableSignatureOf o a)).
Proof.
  unfold createKernelAccount.
  destruct (negb (present (opt_defaultValidator o)) &&
            negb (present (opt_plugin o))); [discriminate|].
  destruct (currentValidatorOf (opt_plugin o) (opt_defaultValidator o))
    as [cv|]; [|discriminate].
  rewrite run_bind. fold (entryPointOf o) (indexOf o) (factoryAddressOf o)
    (accountLogicAddressOf o). fold (generateOf o). fold (resolveOf o).
  destruct (run (resolveOf o) w h) as [[resolved|x] h1]; [|discriminate].
  destruct resolved as [a|]; simpl; [|discriminate].
  destruct (truthy a) eqn:Et; simpl; [|discriminate].
  rewrite run_bind, run_lift. unfold toAccount. simpl.
  destruct (isAddress a) eqn:Ea; simpl; [|discriminate].
  intros E. injection E as <- <-.
  exists cv, a. repeat (split; [first [assumption|reflexivity]|]).
  reflexivity.
Qed.

(** Conversely, once a validator is there and the address resolves to a
    well-formed one, the handle is returned with the events of the
    resolution and no others. *)
Lemma createKernelAccount_resolved (o : Options) (w : World)
    (h h' : list Event) (a : Address) :
  present (opt_defaultValidator o) || present (opt_plugin o) = true ->
  run (resolveOf o) w h = (Ok (Some a), h') ->
  truthy a = true ->
  isAddress a = true ->
  exists acc : KernelSmartAccount,
    run (createKernelAccount o) w h = (Ok acc, h') /\ sa_address acc = a.
Proof.
  intros Hv Hres Ht Ha. unfold createKernelAccount.
  destruct (negb (present (opt_defaultValidator o)) &&
            negb (present (opt_plugin o))) eqn:Eg.
  { destruct (opt_defaultValidator o), (opt_plugin o); discriminate. }
  destruct (currentValidatorOf (opt_plugin o) (opt_defaultValidator o))
    as [cv|] eqn:Ecv.
  2: { apply currentValidatorOf_none in Ecv. congruence. }
  rewrite run_bind. fold (entryPointOf o) (indexOf o) (factoryAddressOf o)
    (accountLogicAddressOf o). fold (generateOf o). fold (resolveOf o).
  rewrite Hres. simpl. rewrite Ht. simpl.
  rewrite run_bind, run_lift. unfold toAccount. simpl.
  rewrite Ha. simpl. eexists. split; reflexivity.
Qed.

(** What the resolution does without an override. *)
Lemma resolveOf_simulation (o : Options) (w : World) (h h1 : list Event)
    (initCode : Hex) :
  opt_deployedAccountAddress o = None ->
  run (generateOf o) w h = (Ok initCode, h1) ->
  run (resolveOf o) w h =
  (w h1 (GetSenderAddress initCode (entryPointOf o)),
   h1 ++ [GetSenderAddress initCode (entryPointOf o)]).
Proof.
  intros Hno Hgen. unfold resolveOf, getAccountAddress. rewrite Hno.
  rewrite run_bind, Hgen.
  generalize (run_request (GetSenderAddress initCode (entryPointOf o)) w h1).
  simpl. intros R. exact R.
Qed.

(** X11: without a default validator and without a plugin,
    [createKernelAccount] fails at once, whatever else is supplied (even
    a deployed address), and asks nothing of anyone. *)
Theorem createKernelAccount_requires_validator (o : Options) (w : World)
    (h : list Event) :
  opt_defaultValidator o = None ->
  opt_plugin o = None ->
  run (createKernelAccount o) w h =
  (Err (JsError
     "You must provide at least defaultValidator or plugin for the kernel smart account"),
   h).
Proof.
  intros Hd Hp. unfold createKernelAccount. rewrite Hd, Hp. reflexivity.
Qed.

(** X12: an account with a plugin but no default validator cannot be
    built unless its init code or its deployed address is given: the
    construction fails with "No init code or default validator provided"
    before any chain access. *)
Theorem createKernelAccount_plugin_only (o : Options) (p : KernelPlugin)
    (w : World) (h : list Event) :
  opt_defaultValidator o = None ->
  opt_plugin o = Some p ->
  opt_initCode o = None ->
  opt_deployedAccountAddress o = None ->
  run (createKernelAccount o) w h =
  (Err (JsError "No init code or default validator provided"), h).
Proof.
  intros Hd Hp Hi Ha. unfold createKernelAccount.
  rewrite Hd, Hp, Hi, Ha. reflexivity.
Qed.

(** X13: without a deployed-address override, the address is the answer
    of the sender-address simulation for the generated init code at the
    entry point (the default one unless overridden): that simulation is
    the one event after those of the init-code generation, and its
    answer, when a well-formed address, is the address of the handle. *)
Theorem createKernelAccount_resolves_by_simulation (o : Options)
    (w : World) (h h1 : list Event) (initCode : Hex) (a : Address) :
  opt_deployedAccountAddress o = None ->
  present (opt_defaultValidator o) || present (opt_plugin o) = true ->
  run (generateInitCode (opt_initCode o) (opt_defaultValidator o)
         (nullish (opt_index o) 0%Z)
         (nullish (opt_factoryAddress o) KERNEL_ADDRESSES.FACTORY_ADDRESS)
         (nullish (opt_accountLogicAddress o)
            KERNEL_ADDRESSES.ACCOUNT_V2_3_LOGIC)) w h = (Ok initCode, h1) ->
  w h1 (GetSenderAddress initCode
          (nullish (opt_entryPoint o) KERNEL_ADDRESSES.ENTRYPOINT_V0_6)) =
    Ok (Some a) ->
  is_hex a = true ->
  isAddress a = true ->
  exists acc : KernelSmartAccount,
    run (createKernelAccount o) w h =
    (Ok acc,
     h1 ++ [GetSenderAddress initCode
              (nullish (opt_entryPoint o)
                 KERNEL_ADDRESSES.ENTRYPOINT_V0_6)]) /\
    sa_address acc = a.
Proof.
  intros Hno Hv Hgen Hw Hhex Ha.
  apply createKernelAccount_resolved;
    [exact Hv| |exact (is_hex_truthy a Hhex)|exact Ha].
  rewrite (resolveOf_simulation o w h h1 initCode Hno Hgen).
  unfold entryPointOf. now rewrite Hw.
Qed.

(** X14: when the simulation answers with no address (undefined or the
    empty string), the construction fails with "Account address not
    found". *)
Theorem createKernelAccount_address_not_found (o : Options)
    (w : World) (h h1 : list Event) (initCode : Hex)
    (answer : option Address) :
  opt_deployedAccountAddress o = None ->
  present (opt_defaultValidator o) || present (opt_plugin o) = true ->
  run (generateInitCode (opt_initCode o) (opt_defaultValidator o)
         (nullish (opt_index o) 0%Z)
         (nullish (opt_factoryAddress o) KERNEL_ADDRESSES.FACTORY_ADDRESS)
         (nullish (opt_accountLogicAddress o)
            KERNEL_ADDRESSES.ACCOUNT_V2_3_LOGIC)) w h = (Ok initCode, h1) ->
  w h1 (GetSenderAddress initCode
          (nullish (opt_entryPoint o) KERNEL_ADDRESSES.ENTRYPOINT_V0_6)) =
    Ok answer ->
  answer = None \/ answer = Some "" ->
  run (createKernelAccount o) w h =
  (Err (JsError "Account address not found"),
   h1 ++ [GetSenderAddress initCode
            (nullish (opt_entryPoint o) KERNEL_ADDRESSES.ENTRYPOINT_V0_6)]).
Proof.
  intros Hno Hv Hgen Hw Hanswer.
  pose proof (resolveOf_simulation o w h h1 initCode Hno Hgen) as Hres.
  unfold entryPointOf in Hres. rewrite Hw in Hres.
  unfold createKernelAccount.
  destruct (negb (present (opt_defaultValidator o)) &&
            negb (present (opt_plugin o))) eqn:Eg.
  { destruct (opt_defaultValidator o), (opt_plugin o); discriminate. }
  destruct (currentValidatorOf (opt_plugin o) (opt_defaultValidator o))
    as [cv|] eqn:Ecv.
  2: { apply currentValidatorOf_none in Ecv. congruence. }
  rewrite run_bind. fold (entryPointOf o) (indexOf o) (factoryAddressOf o)
    (accountLogicAddressOf o). fold (generateOf o). fold (resolveOf o).
  unfold entryPointOf at 1. rewrite Hres.
  destruct Hanswer as [-> | ->]; reflexivity.
Qed.

(** X15: every handle has a non-empty address that viem accepts, the
    same value as public key, the source tag "kernelSmartAccount", the
    entry point of the options (the default one when none is given) and
    the validators of the options, at least one of which is there. *)
Theorem createKernelAccount_handle_invariants (o : Options) (w : World)
    (h h' : list Event) (acc : KernelSmartAccount) :
  run (createKernelAccount o) w h = (Ok acc, h') ->
  sa_address acc <> "" /\
  isAddress (sa_address acc) = true /\
  sa_publicKey acc = sa_address acc /\
  sa_source acc = "kernelSmartAccount" /\
  sa_entryPoint acc =
    nullish (opt_entryPoint o) KERNEL_ADDRESSES.ENTRYPOINT_V0_6 /\
  sa_defaultValidator acc = opt_defaultValidator o /\
  sa_plugin acc = opt_plugin o /\
  (sa_defaultValidator acc <> None \/ sa_plugin acc <> None).
Proof.
  intros Hrun.
  destruct (createKernelAccount_fields o w h h' acc Hrun)
    as (cv & a & Hcv & _ & Ht & Ha & ->). simpl.
  repeat split; try assumption; try reflexivity.
  - intros ->. discriminate Ht.
  - destruct (opt_plugin o); [right; discriminate|].
    destruct (opt_defaultValidator o); [left; discriminate|discriminate].
Qed.

(** X16: when a plugin is given, it is the plugin, not the default
    validator, that the handle signs and encodes with, while the init
    code is still generated from the default validator. *)
Theorem createKernelAccount_plugin_precedence (o : Options)
    (p : KernelPlugin) (w : World) (h h' : list Event)
    (acc : KernelSmartAccount) :
  opt_plugin o = Some p ->
  run (createKernelAccount o) w h = (Ok acc, h') ->
  let logic := nullish (opt_accountLogicAddress o)
                 KERNEL_ADDRESSES.ACCOUNT_V2_3_LOGIC in
  sa_signMessage acc = signMessage p (sa_address acc) logic /\
  sa_signTypedData acc = signTypedData p (sa_address acc) logic /\
  sa_encodeCallData acc = encodeCallData (sa_address acc) p /\
  sa_generateInitCode acc =
    generateInitCode (opt_initCode o) (opt_defaultValidator o)
      (nullish (opt_index o) 0%Z)
      (nullish (opt_factoryAddress o) KERNEL_ADDRESSES.FACTORY_ADDRESS)
      logic.
Proof.
  intros Hp Hrun logic.
  destruct (createKernelAccount_fields o w h h' acc Hrun)
    as (cv & a & Hcv & _ & _ & _ & ->).
  rewrite Hp in Hcv. simpl in Hcv. injection Hcv as <-.
  simpl. repeat split; reflexivity.
Qed.

(** X17: on a handle built with a plugin and a default validator and no
    explicit enable signature, [signUserOperation] first asks the default
    validator for the plugin-enable signature over the handle's address
    and the plugin, then asks the plugin to sign the operation with that
    signature; the plugin's answer is the result. *)
Theorem signUserOperation_with_plugin (o : Options) (p dv : KernelPlugin)
    (w : World) (h h' : list Event) (acc : KernelSmartAccount)
    (userOperation : UserOperation) (w2 : World) (h2 : list Event)
    (s : Hex) :
  opt_plugin o = Some p ->
  opt_defaultValidator o = Some dv ->
  opt_pluginEnableSignature o = None ->
  run (createKernelAccount o) w h = (Ok acc, h') ->
  w2 h2 (GetPluginEnableSignature dv (sa_address acc) p) = Ok s ->
  let enable := GetPluginEnableSignature dv (sa_address acc) p in
  let sign := SignUserOperation p userOperation (Some s) in
  run (sa_signUserOperation acc userOperation) w2 h2 =
  (w2 (h2 ++ [enable]) sign, h2 ++ [enable; sign]).
Proof.
  intros Hp Hd Hs Hrun Hw enable sign.
  destruct (createKernelAccount_fields o w h h' acc Hrun)
    as (cv & a & Hcv & _ & _ & _ & ->).
  rewrite Hp in Hcv. simpl in Hcv. injection Hcv as <-.
  subst enable sign. simpl in *.
  unfold signUserOperation, enableSignatureOf.
  rewrite Hp, Hd, Hs. unfold getPluginEnableSignature, request. simpl.
  rewrite Hw. simpl. rewrite <- app_assoc. simpl.
  destruct (w2 (h2 ++ [GetPluginEnableSignature dv a p])
              (SignUserOperation p userOperation (Some s))); reflexivity.
Qed.

(** X18: on a handle built with a default validator only and no explicit
    enable signature, [signUserOperation] and [getDummySignature] each
    ask the validator once, passing no enable signature. *)
Theorem validator_only_signatures (o : Options) (dv : KernelPlugin)
    (w : World) (h h' : list Event) (acc : KernelSmartAccount)
    (userOperation : UserOperation) (w2 : World) (h2 : list Event) :
  opt_plugin o = None ->
  opt_defaultValidator o = Some dv ->
  opt_pluginEnableSignature o = None ->
  run (createKernelAccount o) w h = (Ok acc, h') ->
  run (sa_signUserOperation acc userOperation) w2 h2 =
    (w2 h2 (SignUserOperation dv userOperation None),
     h2 ++ [SignUserOperation dv userOperation None]) /\
  run (sa_getDummySignature acc userOperation) w2 h2 =
    (w2 h2 (GetDummySignature dv userOperation None),
     h2 ++ [GetDummySignature dv userOperation None]).
Proof.
  intros Hp Hd Hs Hrun.
  destruct (createKernelAccount_fields o w h h' acc Hrun)
    as (cv & a & Hcv & _ & _ & _ & ->).
  rewrite Hp, Hd in Hcv. simpl in Hcv. injection Hcv as <-.
  simpl. unfold signUserOperation, getDummySignature, enableSignatureOf.
  rewrite Hp, Hd, Hs. unfold getPluginEnableSignature, request. simpl.
  split.
  - destruct (w2 h2 (SignUserOperation dv userOperation None));
      reflexivity.
  - destruct (w2 h2 (GetDummySignature dv userOperation None));
      reflexivity.
Qed.

(** X19: when the bytecode lookup rejects, [getInitCode] rejects with the
    same error and does not fall back to generating the init code. *)
Theorem getInitCode_lookup_rejected (accountAddress : Address)
    (generate : Prog Hex) (w : World) (h : list Event) (x : Error) :
  w h (GetBytecode accountAddress) = Err x ->
  run (getInitCode accountAddress generate) w h =
  (Err x, h ++ [GetBytecode accountAddress]).
Proof.
  intros Hw. unfold getInitCode.
  rewrite run_bind, run_request, Hw. reflexivity.
Qed.

End Construction.

(** ** The account client *)

Section AccountClientProperties.
Context `{ClientEnv}.

(** X20: the transport handed to [createClient] overwrites the retry
    count of the options it is called with by 0, in the call to the
    bundler transport and in the call to the http transport put in its
    place alike, leaving chain, polling interval and timeout as they
    are; so two option sets differing only in their retry count give
    the same transport. *)
Theorem transport_ignores_retryCount (include : bool)
    (bundlerTransport : TransportOpts -> TransportInstance)
    (opts opts' : TransportOpts) :
  t_chain opts = t_chain opts' ->
  t_pollingInterval opts = t_pollingInterval opts' ->
  t_timeout opts = t_timeout opts' ->
  transport include bundlerTransport opts =
  transport include bundlerTransport opts' /\
  exists zero : TransportOpts,
    t_retryCount zero = Some 0%Z /\
    t_chain zero = t_chain opts /\
    t_pollingInterval zero = t_pollingInterval opts /\
    t_timeout zero = t_timeout opts /\
    transport false bundlerTransport opts = bundlerTransport zero /\
    transport true bundlerTransport opts =
      http (setPimlicoAsProvider (value_url (bundlerTransport zero))) zero.
Proof.
  intros Hc Hp Ht. split.
  - unfold transport, withoutRetries. now rewrite Hc, Hp, Ht.
  - exists (withoutRetries opts). repeat split; reflexivity.
Qed.

(** X21: a middleware that is a function, or that brings its own gas
    price, is never changed: it reaches the client actions as it was
    given, whatever the transport of the client. *)
Theorem createKernelAccountClient_keeps_middleware (m : ClientMiddleware) :
  (exists f, m = MwFunction f) \/
  (exists g s, m = MwObject (Some g) s) ->
  (forall client : Client, middlewareFor client (Some m) = Some m) /\
  (forall parameters : ClientParameters,
     cfg_middleware parameters = Some m ->
     exists client : Client,
       createKernelAccountClient parameters =
       extendWithActions client (Some m)).
Proof.
  intros Hown.
  assert (Hkeep : forall client : Client,
            middlewareFor client (Some m) = Some m).
  { intros client. unfold middlewareFor.
    destruct Hown as [[f ->]|[g [s ->]]]; reflexivity. }
  split; [exact Hkeep|].
  intros parameters Hm. unfold createKernelAccountClient. rewrite Hm.
  eexists. rewrite Hkeep. reflexivity.
Qed.

(** X22: when the gas price is filled in (no gas price given, and the
    client's transport has a Pimlico URL), it is the bundler's gas price
    for the client just created, and a [sponsorUserOperation] given by
    the caller is kept; when the transport has no URL, or not a Pimlico
    one, the middleware is left as given. *)
Theorem middlewareFor_gas_price (client : Client)
    (sponsor : option SponsorFn) :
  (pimlicoTransport client = true ->
   middlewareFor client (Some (MwObject None sponsor)) =
     Some (MwObject (Some (FromBundler client)) sponsor) /\
   middlewareFor client None =
     Some (MwObject (Some (FromBundler client)) None)) /\
  (pimlicoTransport client = false ->
   forall m : option ClientMiddleware, middlewareFor client m = m).
Proof.
  split.
  - intros Hp. unfold middlewareFor. simpl. rewrite Hp.
    split; reflexivity.
  - intros Hp m. unfold middlewareFor. rewrite Hp.
    now rewrite andb_false_r.
Qed.

(** X23: the Pimlico http transport takes the place of the caller's
    bundler transport only for an http transport on a v0.7 entry point,
    and is then built on [setPimlicoAsProvider] of the bundler
    transport's URL; for any other entry point version or transport key
    the client talks through the bundler transport itself. *)
Theorem transport_substitution
    (bundlerTransport : TransportOpts -> TransportInstance)
    (entryPoint : Address) (opts : TransportOpts) :
  let include := shouldIncludePimlicoProvider bundlerTransport entryPoint in
  (getEntryPointVersion entryPoint <> "v0.7" \/
   config_key (bundlerTransport noOpts) <> "http" ->
   transport include bundlerTransport opts =
   bundlerTransport (withoutRetries opts)) /\
  (getEntryPointVersion entryPoint = "v0.7" ->
   config_key (bundlerTransport noOpts) = "http" ->
   transport include bundlerTransport opts =
   http (setPimlicoAsProvider
           (value_url (bundlerTransport (withoutRetries opts))))
     (withoutRetries opts)).
Proof.
  intros include. subst include.
  unfold transport, shouldIncludePimlicoProvider. split.
  - intros [Hv|Hk].
    + destruct (String.eqb_spec (getEntryPointVersion entryPoint) "v0.7")
        as [E|_]; [contradiction|].
      now rewrite andb_false_r.
    + destruct (String.eqb_spec (config_key (bundlerTransport noOpts))
                  "http") as [E|_]; [contradiction|].
      reflexivity.
  - intros Hv Hk. rewrite Hv, Hk. reflexivity.
Qed.

End AccountClientProperties.

(** ** The properties at work on the symbolic instance *)

Import Sample.

Lemma signHashedMessage_domain_separator_witness :
  verifyingContract domainA <> verifyingContract domainB /\
  salt domainA <> salt domainB /\
  extensions domainA <> extensions domainB /\
  fields domainA <> fields domainB /\
  exists e : Hex,
    encodeAbiParameters
      [TBytes32; TBytes32; TBytes32; TUint256; TAddress]
      [VBytes (keccak256 (stringToHex eip712DomainType));
       VBytes (keccak256 (stringToHex "Kernel"));
       VBytes (keccak256 (stringToHex "0.2.3"));
       VUint 1;
       VAddress account] = Ok e /\
    let events :=
      [EthCall other "eip712Domain()" "latest";
       SignMessage (signer ecdsa)
         (keccak256 (concatHex ["0x1901"; keccak256 e; "0xabcd"]))] in
    snd (run (signHashedMessage ecdsa other account "0xabcd")
           undeployed []) = events /\
    snd (run (signHashedMessage ecdsa other account "0xabcd")
           deployed []) = events.
Proof.
  repeat (split; [discriminate|]).
  eexists. split; [reflexivity|].
  destruct (signHashedMessage_domain_separator ecdsa other account "0xabcd"
              [] "eip712Domain()" _ undeployed deployed "0xA" "0xB"
              domainA domainB eq_refl eq_refl eq_refl eq_refl)
    as [Hfirst Hsecond].
  split.
  - rewrite Hfirst. reflexivity.
  - rewrite (Hsecond eq_refl eq_refl eq_refl eq_refl eq_refl).
    reflexivity.
Defined.

Lemma encodeCallData_batch_witness :
  run (encodeCallData account ecdsa (Batch [transfer; upgrade; approve]))
    undeployed [] =
  (Err (JsError "Cannot batch delegatecall"), []) /\
  run (encodeCallData account ecdsa (Batch [transfer; approve]))
    undeployed [] =
  (encodeFunctionData KernelExecuteAbi "executeBatch"
     [VArray [batchTriple transfer; batchTriple approve]], []).
Proof.
  split.
  - apply (proj1 (encodeCallData_batch account ecdsa
                    [transfer; upgrade; approve] undeployed [])).
    exists upgrade. split; [right; left; reflexivity|reflexivity].
  - apply (proj2 (encodeCallData_batch account ecdsa
                    [transfer; approve] undeployed [])).
    intros txn [<-|[<-|[]]]; discriminate.
Defined.

Lemma encodeCallData_call_other_target_witness :
  ~ same_address (to approve) account /\
  run (encodeCallData account ecdsa (Single approve)) undeployed [] =
  (encodeFunctionData KernelExecuteAbi "execute"
     [VAddress other; VUint 0; VBytes "0xabcd"; VUint 0], []).
Proof.
  assert (Hother : ~ same_address (to approve) account)
    by (unfold same_address; simpl; discriminate).
  split; [exact Hother|].
  apply (encodeCallData_call_other_target account ecdsa approve
           undeployed []); [right; reflexivity|exact Hother].
Defined.

Lemma encodeCallData_delegatecall_witness :
  run (encodeCallData account ecdsa (Single upgrade)) undeployed [] =
    (encodeFunctionData KernelExecuteAbi "executeDelegateCall"
       [VAddress other; VBytes "0xfeed"], []) /\
  run (encodeCallData account ecdsa
         (Single (mkCall other 1000 "0xfeed" (Some "delegatecall"))))
    undeployed [] =
  run (encodeCallData account ecdsa (Single upgrade)) undeployed [].
Proof.
  destruct (encodeCallData_delegatecall account ecdsa upgrade undeployed []
              eq_refl) as [Hrun Hvalue].
  split; [exact Hrun|exact (Hvalue 1000%Z)].
Defined.

Lemma signMessage_signs_digest_witness :
  exists separator : Hex,
    domainSeparator domainA account = Ok separator /\
    run (signMessage ecdsa account KERNEL_ADDRESSES.ACCOUNT_V2_3_LOGIC
           (MsgString "hello")) undeployed [] =
    (Ok ("sig(" ++
         keccak256 (concatHex ["0x1901"; separator;
                               keccak256 (stringToHex "hello")]) ++
         ")")%string,
     [EthCall KERNEL_ADDRESSES.ACCOUNT_V2_3_LOGIC "eip712Domain()" "latest";
      SignMessage (signer ecdsa)
        (keccak256 (concatHex ["0x1901"; separator;
                               keccak256 (stringToHex "hello")]))]).
Proof.
  eexists. split; [reflexivity|].
  apply (signMessage_signs_digest ecdsa account
           KERNEL_ADDRESSES.ACCOUNT_V2_3_LOGIC (MsgString "hello")
           undeployed [] "eip712Domain()" "0xA" _ domainA);
    reflexivity.
Defined.

Lemma generateInitCode_cases_witness :
  run (generateInitCode (Some "0x5de4c0de") (Some ecdsa) 0
         KERNEL_ADDRESSES.FACTORY_ADDRESS
         KERNEL_ADDRESSES.ACCOUNT_V2_3_LOGIC) undeployed [] =
    (Ok "0x5de4c0de", []) /\
  (exists createAccountCall : Hex,
     run (generateInitCode None (Some ecdsa) 0
            KERNEL_ADDRESSES.FACTORY_ADDRESS
            KERNEL_ADDRESSES.ACCOUNT_V2_3_LOGIC) undeployed [] =
     (Ok (concatHex [KERNEL_ADDRESSES.FACTORY_ADDRESS; createAccountCall]),
      [GetEnableData ecdsa])) /\
  fst (run (generateInitCode None (Some ecdsa) 0
              KERNEL_ADDRESSES.FACTORY_ADDRESS
              KERNEL_ADDRESSES.ACCOUNT_V2_3_LOGIC) undeployed []) =
  fst (run (generateInitCode None
              (Some (mkPlugin "renamed" (plugin_address ecdsa)
                       (signer ecdsa))) 0
              KERNEL_ADDRESSES.FACTORY_ADDRESS
              KERNEL_ADDRESSES.ACCOUNT_V2_3_LOGIC) deployed
         [GetBytecode account]).
Proof.
  destruct (generateInitCode_cases 0 KERNEL_ADDRESSES.FACTORY_ADDRESS
              KERNEL_ADDRESSES.ACCOUNT_V2_3_LOGIC)
    as (Hoverride & Hbuilt & _ & Hdet).
  split; [|split].
  - apply Hoverride. reflexivity.
  - eexists.
    eapply (Hbuilt ecdsa undeployed []
              "0xdddddddddddddddddddddddddddddddddddddddd");
      reflexivity.
  - apply Hdet; reflexivity.
Defined.

Lemma signTransaction_not_supported_witness :
  exists acc : KernelSmartAccount,
    run (createKernelAccount options) undeployed [] = (Ok acc, []) /\
    run (sa_signTransaction acc tt tt) deployed [GetBytecode account] =
    (Err SignTransactionNotSupportedBySmartAccount, [GetBytecode account]).
Proof.
  eexists. split; [reflexivity|].
  apply (signTransaction_not_supported options undeployed [] []).
  reflexivity.
Defined.

Lemma createKernelAccount_deployed_override_witness :
  snd (run (createKernelAccount options) undeployed []) = [] /\
  exists acc : KernelSmartAccount,
    run (createKernelAccount options) undeployed [] = (Ok acc, []) /\
    sa_address acc = account.
Proof.
  destruct (createKernelAccount_deployed_override options account
              undeployed [] eq_refl) as (Hsilent & _ & Hsucceeds).
  split; [exact Hsilent|].
  apply Hsucceeds; reflexivity.
Defined.

Lemma getInitCode_cases_witness :
  run (getInitCode account (Ret "0xc0de")) deployed [] =
    (Ok "0x", [GetBytecode account]) /\
  run (getInitCode account (Ret "0xc0de")) undeployed [] =
    (Ok "0xc0de", [GetBytecode account]).
Proof.
  split.
  - apply (proj1 (getInitCode_cases account (Ret "0xc0de") deployed [])
             "0x363d3d37"); [reflexivity|simpl; lia].
  - apply (proj2 (getInitCode_cases account (Ret "0xc0de") undeployed [])).
    left. reflexivity.
Defined.

(** C10 as worded fails: an account built with the explicit init code
    "0x" and no code on chain gets "0x" from [getInitCode], through
    [generateInitCode], although the lookup found nothing. *)
Lemma getInitCode_empty_without_bytecode :
  ~ empty_exactly_when_deployed account
      (generateInitCode (Some "0x") (Some ecdsa) 0
         KERNEL_ADDRESSES.FACTORY_ADDRESS
         KERNEL_ADDRESSES.ACCOUNT_V2_3_LOGIC)
      undeployed [].
Proof.
  unfold empty_exactly_when_deployed. intros [Hforward _].
  destruct (Hforward eq_refl) as [code [Hcode _]].
  discriminate Hcode.
Qed.

(** ** Further properties at work *)

Import Scenarios.

Lemma encodeCallData_self_call_outcomes_witness :
  run (encodeCallData account ecdsa (Single shouting)) undeployed [] =
  (Ok "0x1234", [ShouldDelegateViaFallback ecdsa]).
Proof.
  apply (encodeCallData_self_call_outcomes account ecdsa shouting
           undeployed []); [right; reflexivity|reflexivity].
Defined.

Lemma encodeCallData_invalid_call_type_witness :
  run (encodeCallData account ecdsa (Single mistyped)) undeployed [] =
  (Err (JsError "Invalid call type"), []).
Proof.
  apply (encodeCallData_invalid_call_type account ecdsa mistyped
           "delegatecall2000" undeployed []);
    [reflexivity|discriminate|discriminate|discriminate].
Defined.

Lemma encodeDeployCallData_as_delegatecall_witness :
  run (@encodeDeployCallData viem tt) undeployed [] =
  run (encodeCallData account ecdsa
         (Single (mkCall createCallAddress 7 "performCreate(0,0x6080)"
                    (Some "delegatecall")))) undeployed [].
Proof.
  apply (@encodeDeployCallData_as_delegatecall viem tt "0x6080"
           "performCreate(0,0x6080)" account ecdsa 7 undeployed []);
    reflexivity.
Defined.

Lemma generateInitCode_owner_missing_witness :
  run (generateInitCode None (Some ownerless) 0
         KERNEL_ADDRESSES.FACTORY_ADDRESS
         KERNEL_ADDRESSES.ACCOUNT_V2_3_LOGIC) undeployed [] =
  (Err (JsError "Owner account not found"), [GetEnableData ownerless]).
Proof.
  apply (generateInitCode_owner_missing ownerless 0
           KERNEL_ADDRESSES.FACTORY_ADDRESS
           KERNEL_ADDRESSES.ACCOUNT_V2_3_LOGIC undeployed []).
  reflexivity.
Defined.

Lemma generateInitCode_enable_data_rejected_witness :
  run (generateInitCode None (Some ecdsa) 0
         KERNEL_ADDRESSES.FACTORY_ADDRESS
         KERNEL_ADDRESSES.ACCOUNT_V2_3_LOGIC) silent [] =
  (Err (ExternalError "unavailable"), [GetEnableData ecdsa]).
Proof.
  apply (generateInitCode_enable_data_rejected ecdsa 0
           KERNEL_ADDRESSES.FACTORY_ADDRESS
           KERNEL_ADDRESSES.ACCOUNT_V2_3_LOGIC silent []);
    [discriminate|reflexivity].
Defined.

Lemma signHashedMessage_domain_failure_witness :
  run (signHashedMessage ecdsa other account "0xabcd") silent [] =
  (Err (ExternalError "unavailable"),
   [EthCall other "eip712Domain()" "latest"]).
Proof.
  apply (signHashedMessage_domain_failure ecdsa other account "0xabcd"
           silent [] "eip712Domain()"); [reflexivity|].
  left. reflexivity.
Defined.

Lemma signTypedData_validates_first_witness :
  run (@signTypedData strict ecdsa account other false)
      (@silent strict) [] =
    (Err (ExternalError "InvalidAddressError"), []) /\
  run (@signTypedData strict ecdsa account other true)
      (@silent strict) [] =
  run (@signHashedMessage strict ecdsa other account "0xtyped")
      (@silent strict) [].
Proof.
  split.
  - apply (proj1 (@signTypedData_validates_first strict ecdsa account
                    other false (@silent strict) [])).
    reflexivity.
  - apply (proj2 (@signTypedData_validates_first strict ecdsa account
                    other true (@silent strict) [])); reflexivity.
Defined.

Lemma getPluginEnableSignature_cases_witness :
  run (getPluginEnableSignature (Some "0xe5ab1e") (Some session)
         (Some ecdsa) account) silent [] = (Ok (Some "0xe5ab1e"), []) /\
  run (getPluginEnableSignature None None (Some ecdsa) account)
      silent [] = (Ok None, []).
Proof.
  destruct (getPluginEnableSignature_cases account silent [])
    as (Hgiven & _ & Hnone).
  split.
  - apply Hgiven. reflexivity.
  - apply Hnone. left. reflexivity.
Defined.

Lemma createKernelAccount_requires_validator_witness :
  run (createKernelAccount bare) undeployed [] =
  (Err (JsError
     "You must provide at least defaultValidator or plugin for the kernel smart account"),
   []).
Proof.
  apply (createKernelAccount_requires_validator bare undeployed []);
    reflexivity.
Defined.

Lemma createKernelAccount_plugin_only_witness :
  run (createKernelAccount pluginOnly) undeployed [] =
  (Err (JsError "No init code or default validator provided"), []).
Proof.
  apply (createKernelAccount_plugin_only pluginOnly session undeployed []);
    reflexivity.
Defined.

Lemma createKernelAccount_resolves_by_simulation_witness :
  exists (acc : KernelSmartAccount) (initCode : Hex),
    run (createKernelAccount fresh) undeployed [] =
    (Ok acc,
     [GetEnableData ecdsa;
      GetSenderAddress initCode KERNEL_ADDRESSES.ENTRYPOINT_V0_6]) /\
    sa_address acc = account.
Proof.
  destruct (createKernelAccount_resolves_by_simulation fresh undeployed []
              [GetEnableData ecdsa]
              (concatHex
                 [KERNEL_ADDRESSES.FACTORY_ADDRESS;
                  "createAccount(0xD3F582F6B4814E989Ee8E96bc3175320B5A540ab,initialize(0xcccccccccccccccccccccccccccccccccccccccc,0xdddddddddddddddddddddddddddddddddddddddd),0)"])
              account eq_refl eq_refl eq_refl eq_refl eq_refl eq_refl)
    as [acc Hacc].
  exists acc. eexists. exact Hacc.
Defined.

Lemma createKernelAccount_address_not_found_witness :
  exists initCode : Hex,
    run (createKernelAccount fresh) nowhere [] =
    (Err (JsError "Account address not found"),
     [GetEnableData ecdsa;
      GetSenderAddress initCode KERNEL_ADDRESSES.ENTRYPOINT_V0_6]).
Proof.
  eexists.
  apply (createKernelAccount_address_not_found fresh nowhere []
           [GetEnableData ecdsa] _ None);
    [reflexivity|reflexivity|reflexivity|reflexivity|left; reflexivity].
Defined.

Lemma createKernelAccount_handle_invariants_witness :
  exists acc : KernelSmartAccount,
    run (createKernelAccount withPlugin) undeployed [] = (Ok acc, []) /\
    sa_address acc <> "" /\
    sa_publicKey acc = sa_address acc /\
    sa_entryPoint acc = KERNEL_ADDRESSES.ENTRYPOINT_V0_6 /\
    sa_plugin acc = Some session.
Proof.
  eexists. split; [reflexivity|].
  destruct (createKernelAccount_handle_invariants withPlugin undeployed
              [] [] _ eq_refl)
    as (Hne & _ & Hpk & _ & Hep & _ & Hpl & _).
  repeat split; assumption.
Defined.

Lemma createKernelAccount_plugin_precedence_witness :
  exists acc : KernelSmartAccount,
    run (createKernelAccount withPlugin) undeployed [] = (Ok acc, []) /\
    sa_signMessage acc =
      signMessage session (sa_address acc)
        KERNEL_ADDRESSES.ACCOUNT_V2_3_LOGIC /\
    sa_encodeCallData acc = encodeCallData (sa_address acc) session.
Proof.
  eexists. split; [reflexivity|].
  destruct (createKernelAccount_plugin_precedence withPlugin session
              undeployed [] [] _ eq_refl eq_refl)
    as (Hsign & _ & Henc & _).
  split; assumption.
Defined.

Lemma signUserOperation_with_plugin_witness :
  exists acc : KernelSmartAccount,
    run (createKernelAccount withPlugin) undeployed [] = (Ok acc, []) /\
    run (sa_signUserOperation acc tt) undeployed [] =
    (Ok "0xsig",
     [GetPluginEnableSignature ecdsa account session;
      SignUserOperation session tt (Some "0xenable")]).
Proof.
  eexists. split; [reflexivity|].
  exact (signUserOperation_with_plugin withPlugin session ecdsa undeployed
           [] [] _ tt undeployed [] "0xenable"
           eq_refl eq_refl eq_refl eq_refl eq_refl).
Defined.

Lemma validator_only_signatures_witness :
  exists acc : KernelSmartAccount,
    run (createKernelAccount options) undeployed [] = (Ok acc, []) /\
    run (sa_signUserOperation acc tt) undeployed [] =
      (Ok "0xsig", [SignUserOperation ecdsa tt None]) /\
    run (sa_getDummySignature acc tt) undeployed [] =
      (Ok "0xdummy", [GetDummySignature ecdsa tt None]).
Proof.
  eexists. split; [reflexivity|].
  exact (validator_only_signatures options ecdsa undeployed [] [] _ tt
           undeployed [] eq_refl eq_refl eq_refl eq_refl).
Defined.

Lemma getInitCode_lookup_rejected_witness :
  run (getInitCode account (Ret "0xc0de")) silent [] =
  (Err (ExternalError "unavailable"), [GetBytecode account]).
Proof.
  apply (getInitCode_lookup_rejected account (Ret "0xc0de") silent []).
  reflexivity.
Defined.

Lemma transport_ignores_retryCount_witness :
  @transport clientEnv true bundler
    (mkTransportOpts None (Some 4000%Z) (Some 3%Z) None) =
  @transport clientEnv true bundler
    (mkTransportOpts None (Some 4000%Z) None None) /\
  exists zero : TransportOpts,
    t_retryCount zero = Some 0%Z /\
    @transport clientEnv true bundler
      (mkTransportOpts None (Some 4000%Z) (Some 3%Z) None) =
    http (setPimlicoAsProvider (value_url (bundler zero))) zero.
Proof.
  destruct (@transport_ignores_retryCount clientEnv true bundler
              (mkTransportOpts None (Some 4000%Z) (Some 3%Z) None)
              (mkTransportOpts None (Some 4000%Z) None None)
              eq_refl eq_refl eq_refl)
    as [Hsame (zero & Hzero & _ & _ & _ & _ & Hhttp)].
  split; [exact Hsame|].
  exists zero. split; [exact Hzero|exact Hhttp].
Defined.

Lemma createKernelAccountClient_keeps_middleware_witness :
  exists client : @Client clientEnv,
    createKernelAccountClient clientParameters =
    extendWithActions client (Some ownGasPrice).
Proof.
  apply (proj2 (@createKernelAccountClient_keeps_middleware clientEnv
                  ownGasPrice
                  (or_intror
                     (ex_intro _ (Supplied "mine")
                        (ex_intro _ (Some "paymaster") eq_refl))))).
  reflexivity.
Defined.

Lemma middlewareFor_gas_price_witness :
  @middlewareFor clientEnv
    ("http", Some "https://bundler.example?provider=PIMLICO")
    (Some (MwObject None (Some "paymaster"))) =
  Some (MwObject
          (Some (FromBundler
                   ("http", Some "https://bundler.example?provider=PIMLICO")))
          (Some "paymaster")) /\
  @middlewareFor clientEnv ("webSocket", None)
    (Some (MwObject None (Some "paymaster"))) =
  Some (MwObject None (Some "paymaster")).
Proof.
  split.
  - apply (proj1 (@middlewareFor_gas_price clientEnv
                    ("http", Some "https://bundler.example?provider=PIMLICO")
                    (Some "paymaster"))).
    reflexivity.
  - apply (proj2 (@middlewareFor_gas_price clientEnv ("webSocket", None)
                    None)).
    reflexivity.
Defined.

Lemma transport_substitution_witness :
  @transport clientEnv
    (@shouldIncludePimlicoProvider clientEnv bundler
       KERNEL_ADDRESSES.ENTRYPOINT_V0_6)
    bundler noOpts = ("http", Some "https://bundler.example") /\
  @transport clientEnv
    (@shouldIncludePimlicoProvider clientEnv bundler entryPointV07)
    bundler noOpts =
  ("http", Some "https://bundler.example?provider=PIMLICO").
Proof.
  split.
  - apply (proj1 (@transport_substitution clientEnv bundler
                    KERNEL_ADDRESSES.ENTRYPOINT_V0_6 noOpts)).
    left. discriminate.
  - apply (proj2 (@transport_substitution clientEnv bundler entryPointV07
                    noOpts));
      reflexivity.
Defined.
